(** * TrustBridge scoring service (ml-real-estate-app/app.py)

    A shallow embedding of the prediction pipeline of [app.py]: the two
    scoring routes ([predict_house], [predict_loan]), the lazily filled
    model globals, the [Prediction] table, the dashboard history query and
    the PDF report route ([download_report]).

    Python values are modelled as follows.
    - A [str] is a [string] (a sequence of bytes, UTF-8 for non-ASCII text).
    - A [float] is an element of the abstract type [pyfloat] of the platform
      interface below; the built-ins that produce or print floats are
      operations of that interface.
    - An exception caught by [except Exception as e] is represented by the
      text [str(e)], the only thing the handlers use.
    - [request.form] is a finite map from field names to submitted strings.
    - The text stored in [Prediction.input_json] is identified with the JSON
      document it denotes (an ordered object of floats and strings):
      [json.loads (json.dumps d) = d] on such documents. *)

From stdpp Require Import gmap strings list fin_maps pretty sorting.
From Stdlib Require Import Ascii QArith.

Local Open Scope string_scope.
Local Open Scope Z_scope.
Local Open Scope list_scope.

(** ** Exceptions inside a [try] block *)

Inductive result (A : Type) : Type :=
| Raise (msg : string)
| Return (a : A).
Arguments Raise {A} msg.
Arguments Return {A} a.

#[global] Instance result_ret : MRet result := λ A a, Return a.
#[global] Instance result_bind : MBind result :=
  λ A B f r, match r with Raise msg => Raise msg | Return a => f a end.

(** ** The drawing interface of [reportlab.pdfgen.canvas.Canvas] *)

Inductive canvas_op : Type :=
| setFont (psfontname : string) (size : Z)
| drawString (x y : Z) (text : string)
| line (x1 y1 x2 y2 : Z)
| setFillColorRGB (r g b : Q)
| setFillColor (aColor : string)
| showPage.

(** ** Platform interface

    The parts of the Python runtime and of the third-party packages that
    [app.py] calls but does not define. *)

Class Platform := {
  (** the type of Python floats (IEEE doubles) *)
  pyfloat : Type;
  (** [float(s)]: the parsed value, or the text of the [ValueError] *)
  float_ : string → result pyfloat;
  (** the float denoted by a decimal literal of the program text *)
  float_literal : Q → pyfloat;
  (** conversion of an integer to a float *)
  float_of_int : Z → pyfloat;
  (** [x == n] for a float [x] and an integer [n] *)
  float_eq_int : pyfloat → Z → bool;
  (** [str(x)], which is also how [json.dumps] writes a float *)
  float_repr : pyfloat → string;
  (** the format specification [,.2f] *)
  format_comma_2f : pyfloat → string;
  (** [str(e)] of the [BadRequestKeyError] raised by [request.form[k]]
      when the field [k] was not submitted *)
  missing_key : string → string;
  (** [t.strftime('%Y-%m-%d %H:%M:%S')] of a UTC time stamp, given in
      microseconds since the epoch *)
  strftime : Z → string;
  (** [Canvas(buffer, pagesize=...)], the drawing calls, then [save()]: the
      bytes written to the buffer.  The canvas is built with the package's
      default settings, so the writer also receives the wall-clock reading
      at which the document is made. *)
  canvas_save : Z → Z * Z → list canvas_op → list Byte.byte
}.

(** ** String helpers: [str.replace('_', ' ')], [str.title()], [{:04d}] *)

Definition is_lower (c : ascii) : bool :=
  let n := nat_of_ascii c in (97 <=? n)%nat && (n <=? 122)%nat.

Definition is_upper (c : ascii) : bool :=
  let n := nat_of_ascii c in (65 <=? n)%nat && (n <=? 90)%nat.

Definition to_upper (c : ascii) : ascii :=
  if is_lower c then ascii_of_nat (nat_of_ascii c - 32) else c.

Definition to_lower (c : ascii) : ascii :=
  if is_upper c then ascii_of_nat (nat_of_ascii c + 32) else c.

(** [title_from cased s]: [cased] tells whether the previous character was
    a cased one (ASCII letters are the cased characters modelled). *)
Fixpoint title_from (cased : bool) (s : string) : string :=
  match s with
  | EmptyString => EmptyString
  | String c s' =>
      String (if cased then to_lower c else to_upper c)
             (title_from (is_lower c || is_upper c) s')
  end.

Definition title (s : string) : string := title_from false s.

Fixpoint replace_underscore (s : string) : string :=
  match s with
  | EmptyString => EmptyString
  | String c s' =>
      String (if Ascii.eqb c "_"%char then " "%char else c)
             (replace_underscore s')
  end.

Fixpoint zeros (n : nat) : string :=
  match n with
  | O => EmptyString
  | S n' => String "0"%char (zeros n')
  end.

(** [f"{n:04d}"]: sign first, then zeros up to a total width of 4. *)
Definition format_04d (n : Z) : string :=
  let digits := pretty (Z.abs n) in
  let sign := if (n <? 0)%Z then "-" else EmptyString in
  sign +:+ zeros (4 - String.length sign - String.length digits) +:+ digits.

(** ** Models and the artifact files *)

Section Service.
Context `{Platform}.

(** An entry of a numeric array or of the [features] list. *)
Inductive scalar : Type :=
| SInt (z : Z)
| SFloat (x : pyfloat).

(** A row of a 1 x n array ([np.array(...).reshape(1, -1)]) is identified
    with the list of its entries. *)
Record Model : Type := {
  predict : list scalar → result (list scalar)
}.

(** What is found at a path: nothing, a file [joblib.load] cannot read,
    or a pickled model. *)
Inductive file : Type :=
| Absent
| Unreadable (msg : string)
| Pickle (m : Model).

Definition HOUSE_MODEL_PATH : string := "models/house_price_model.pkl".
Definition LOAN_MODEL_PATH : string := "models/loan_eligibility_model.pkl".

Definition load_model (disk : string → file) (path : string)
  : result (option Model) :=
  match disk path with
  | Absent => Return None
  | Unreadable msg => Raise msg
  | Pickle m => Return (Some m)
  end.

(** ** Tables *)

Inductive jvalue : Type :=
| JFloat (x : pyfloat)
| JStr (s : string).

Record User : Type := {
  User_id : Z;
  full_name : string
}.

Record Prediction : Type := {
  pred_id : Z;
  type : string;
  input_json : list (string * jvalue);
  result_text : string;
  confidence : pyfloat;
  timestamp : Z;
  user_id : Z
}.

(** The keyword arguments of the [Prediction(...)] constructor; a column
    left out is [None] and receives its default at insertion. *)
Record PredictionArgs : Type := {
  arg_type : string;
  arg_input_json : list (string * jvalue);
  arg_result_text : string;
  arg_confidence : option pyfloat;
  arg_timestamp : option Z;
  arg_user_id : Z
}.

Definition confidence_default : pyfloat := float_literal 94.2%Q.

(** The integer primary key: one more than the largest [id] in use, 1 for
    an empty table. *)
Definition next_id (table : list Prediction) : Z :=
  match pred_id <$> table with
  | [] => 1
  | i :: ids => 1 + foldr Z.max i ids
  end.

(** [db.session.add(entry); db.session.commit()] at time [now]: the new
    table and the stored row. *)
Definition add_commit (now : Z) (table : list Prediction)
    (entry : PredictionArgs) : list Prediction * Prediction :=
  let row := {| pred_id := next_id table;
                type := arg_type entry;
                input_json := arg_input_json entry;
                result_text := arg_result_text entry;
                confidence := default confidence_default (arg_confidence entry);
                timestamp := default now (arg_timestamp entry);
                user_id := arg_user_id entry |} in
  (table ++ [row], row).

(** [Prediction.query.get(i)] *)
Definition query_get (table : list Prediction) (i : Z) : option Prediction :=
  List.find (λ p, bool_decide (pred_id p = i)) table.

(** [Prediction.query.filter_by(user_id=u)
      .order_by(Prediction.timestamp.desc()).limit(5).all()] *)
Definition newer_or_same (a b : Prediction) : Prop := timestamp b ≤ timestamp a.

#[local] Instance newer_or_same_dec a b : Decision (newer_or_same a b).
Proof. unfold newer_or_same. apply _. Defined.

Definition history_query (table : list Prediction) (u : Z)
  : list Prediction :=
  take 5 (merge_sort newer_or_same (filter (λ p, user_id p = u) table)).

(** ** Process state and request environment *)

Record World : Type := {
  house_model : option Model;
  loan_model : option Model;
  Prediction_table : list Prediction
}.

Record Env : Type := {
  disk : string → file;
  utcnow : Z;
  current_user : option User
}.

Record factor : Type := {
  factor_name : string;
  impact : string;
  desc : string
}.

Inductive response : Type :=
| Redirect (endpoint : string)
| ResultPage (prediction_text page_title page_type : string)
             (explain : list factor) (new_id : Z)
| ResultError (error : string)
| DashboardPage (name : string) (history : list Prediction)
| SendFile (body : list Byte.byte) (download_name mimetype : string)
| Unauthorized403
| NotFound404
| InternalServerError.

Definition set_house_model (w : World) (m : option Model) : World :=
  {| house_model := m;
     loan_model := loan_model w;
     Prediction_table := Prediction_table w |}.

Definition set_loan_model (w : World) (m : option Model) : World :=
  {| house_model := house_model w;
     loan_model := m;
     Prediction_table := Prediction_table w |}.

Definition set_table (w : World) (table : list Prediction) : World :=
  {| house_model := house_model w;
     loan_model := loan_model w;
     Prediction_table := table |}.

(** ** Reading the form *)

(** [request.form[k]] *)
Definition form_get (form : gmap string string) (k : string) : result string :=
  match form !! k with
  | Some v => Return v
  | None => Raise (missing_key k)
  end.

(** [float(request.form[k])] *)
Definition form_float (form : gmap string string) (k : string)
  : result pyfloat :=
  form_get form k ≫= float_.

(** [prediction[0]] *)
Definition index0 (prediction : list scalar) : result scalar :=
  match prediction with
  | x :: _ => Return x
  | [] => Raise "index 0 is out of bounds for axis 0 with size 0"
  end.

Definition scalar_float (s : scalar) : pyfloat :=
  match s with
  | SInt z => float_of_int z
  | SFloat x => x
  end.

(** [s == n] *)
Definition scalar_eq_int (s : scalar) (n : Z) : bool :=
  match s with
  | SInt z => bool_decide (z = n)
  | SFloat x => float_eq_int x n
  end.

(** ** predict_house *)

(** The [data] dict of [predict_house]: its keys are fixed, so it is a
    record; [house_items] lists it in insertion order. *)
Record HouseData : Type := {
  bedrooms : pyfloat;
  bathrooms : pyfloat;
  flat_area : pyfloat;
  lot_area : pyfloat;
  condition : pyfloat;
  grade : pyfloat;
  zipcode : pyfloat
}.

Definition house_data (form : gmap string string) : result HouseData :=
  v1 ← form_float form "bedrooms";
  v2 ← form_float form "bathrooms";
  v3 ← form_float form "flat_area";
  v4 ← form_float form "lot_area";
  v5 ← form_float form "condition";
  v6 ← form_float form "grade";
  v7 ← form_float form "zipcode";
  mret {| bedrooms := v1; bathrooms := v2; flat_area := v3; lot_area := v4;
          condition := v5; grade := v6; zipcode := v7 |}.

Definition house_items (data : HouseData) : list (string * pyfloat) :=
  [ ("bedrooms", bedrooms data); ("bathrooms", bathrooms data);
    ("flat_area", flat_area data); ("lot_area", lot_area data);
    ("condition", condition data); ("grade", grade data);
    ("zipcode", zipcode data) ].

(** [json.dumps(data)] *)
Definition house_json (data : HouseData) : list (string * jvalue) :=
  (λ kv, (kv.1, JFloat kv.2)) <$> house_items data.

(** [list(data.values())] *)
Definition house_features (data : HouseData) : list scalar :=
  (λ kv, SFloat kv.2) <$> house_items data.

Definition house_explain : list factor :=
  [ {| factor_name := "Location (Zipcode)"; impact := "High";
       desc := "Zipcode is a primary driver of market value in our current model." |};
    {| factor_name := "Space (Sqft)"; impact := "Medium";
       desc := "Flat area directly correlates with the predicted appraisal." |};
    {| factor_name := "State (Condition)"; impact := "Moderate";
       desc := "Overall property maintenance level affected the final number." |} ].

(** The body of the [try] block: the new table and the page, or the
    exception that reaches the handler. *)
Definition house_try (m : Model) (user : User) (now : Z)
    (table : list Prediction) (form : gmap string string)
  : result (list Prediction * response) :=
  data ← house_data form;
  prediction ← predict m (house_features data);
  p0 ← index0 prediction;
  let output := "$" +:+ format_comma_2f (scalar_float p0) in
  let pred_entry := {| arg_type := "house";
                       arg_input_json := house_json data;
                       arg_result_text := output;
                       arg_confidence := None;
                       arg_timestamp := None;
                       arg_user_id := User_id user |} in
  let saved := add_commit now table pred_entry in
  mret (saved.1,
        ResultPage output "Real Estate Appraisal" "house" house_explain
                   (pred_id saved.2)).

Definition house_scoring (m : Model) (user : User) (env : Env) (w : World)
    (form : gmap string string) : World * response :=
  match house_try m user (utcnow env) (Prediction_table w) form with
  | Return (table', page) => (set_table w table', page)
  | Raise msg => (w, ResultError ("Data processing error: " +:+ msg))
  end.

Definition predict_house (env : Env) (w : World) (form : gmap string string)
  : World * response :=
  match current_user env with
  | None => (w, Redirect "login")
  | Some user =>
      match house_model w with
      | Some m => house_scoring m user env w form
      | None =>
          match load_model (disk env) HOUSE_MODEL_PATH with
          | Raise _ => (w, InternalServerError)
          | Return None =>
              (w, ResultError "System Upgrade in Progress: House Model currently offline.")
          | Return (Some m) =>
              house_scoring m user env (set_house_model w (Some m)) form
          end
      end
  end.

(** ** predict_loan *)

Record LoanData : Type := {
  applicant_income : pyfloat;
  coapplicant_income : pyfloat;
  loan_amount : pyfloat;
  loan_term : pyfloat;
  credit_history : pyfloat;
  property_area : string;
  married : string;
  education : string
}.

Definition loan_data (form : gmap string string) : result LoanData :=
  v1 ← form_float form "applicant_income";
  v2 ← form_float form "coapplicant_income";
  v3 ← form_float form "loan_amount";
  v4 ← form_float form "loan_term";
  v5 ← form_float form "credit_history";
  v6 ← form_get form "property_area";
  v7 ← form_get form "married";
  v8 ← form_get form "education";
  mret {| applicant_income := v1; coapplicant_income := v2; loan_amount := v3;
          loan_term := v4; credit_history := v5; property_area := v6;
          married := v7; education := v8 |}.

(** [json.dumps(data)] *)
Definition loan_json (data : LoanData) : list (string * jvalue) :=
  [ ("applicant_income", JFloat (applicant_income data));
    ("coapplicant_income", JFloat (coapplicant_income data));
    ("loan_amount", JFloat (loan_amount data));
    ("loan_term", JFloat (loan_term data));
    ("credit_history", JFloat (credit_history data));
    ("property_area", JStr (property_area data));
    ("married", JStr (married data));
    ("education", JStr (education data)) ].

Definition area_map : gmap string Z :=
  <["Rural" := 2]> (<["Semiurban" := 1]> (<["Urban" := 0]> ∅)).

Definition loan_features (data : LoanData) : list scalar :=
  [ SFloat (applicant_income data); SFloat (coapplicant_income data);
    SFloat (loan_amount data);
    SFloat (loan_term data); SFloat (credit_history data);
    SInt (default 0 (area_map !! property_area data));
    SInt (if decide (married data = "Yes") then 1 else 0);
    SInt (if decide (education data = "Graduate") then 1 else 0) ].

Definition APPROVED : string := "Approved ✅".
Definition FLAGGED : string := "Flagged for Review ❌".

Definition loan_explain : list factor :=
  [ {| factor_name := "Credit History"; impact := "Critical";
       desc := "Historical repayment behavior is the strongest predictor for this outcome." |};
    {| factor_name := "Income-to-Debt"; impact := "High";
       desc := "The ratio between your total income and requested loan amount was analyzed." |};
    {| factor_name := "Education Level"; impact := "Minor";
       desc := "Academic background contributes slightly to financial stability scoring." |} ].

Definition loan_try (m : Model) (user : User) (now : Z)
    (table : list Prediction) (form : gmap string string)
  : result (list Prediction * response) :=
  data ← loan_data form;
  prediction ← predict m (loan_features data);
  p0 ← index0 prediction;
  let result := if scalar_eq_int p0 1 then APPROVED else FLAGGED in
  let pred_entry := {| arg_type := "loan";
                       arg_input_json := loan_json data;
                       arg_result_text := result;
                       arg_confidence := None;
                       arg_timestamp := None;
                       arg_user_id := User_id user |} in
  let saved := add_commit now table pred_entry in
  mret (saved.1,
        ResultPage result "Loan Eligibility Analysis" "loan" loan_explain
                   (pred_id saved.2)).

Definition loan_scoring (m : Model) (user : User) (env : Env) (w : World)
    (form : gmap string string) : World * response :=
  match loan_try m user (utcnow env) (Prediction_table w) form with
  | Return (table', page) => (set_table w table', page)
  | Raise msg => (w, ResultError ("Analysis engine error: " +:+ msg))
  end.

Definition predict_loan (env : Env) (w : World) (form : gmap string string)
  : World * response :=
  match current_user env with
  | None => (w, Redirect "login")
  | Some user =>
      match loan_model w with
      | Some m => loan_scoring m user env w form
      | None =>
          match load_model (disk env) LOAN_MODEL_PATH with
          | Raise _ => (w, InternalServerError)
          | Return None =>
              (w, ResultError "System Upgrade in Progress: Loan Engine currently offline.")
          | Return (Some m) =>
              loan_scoring m user env (set_loan_model w (Some m)) form
          end
      end
  end.

(** ** dashboard *)

Definition dashboard (env : Env) (w : World) : World * response :=
  match current_user env with
  | None => (w, Redirect "login")
  | Some user =>
      (w, DashboardPage (full_name user)
                        (history_query (Prediction_table w) (User_id user)))
  end.

(** ** download_report *)

Definition LETTER : Z * Z := (612, 792).

(** [f"{val}"] for a value read back from the stored JSON *)
Definition format_jvalue (val : jvalue) : string :=
  match val with
  | JFloat x => float_repr x
  | JStr s => s
  end.

(** The loop over [inputs.items()], starting at height [y]: the lines
    drawn and the height reached. *)
Fixpoint draw_inputs (y : Z) (inputs : list (string * jvalue))
  : list canvas_op * Z :=
  match inputs with
  | [] => ([], y)
  | (key, val) :: rest =>
      let drawn := draw_inputs (y - 15) rest in
      (drawString 120 y
         ("- " +:+ title (replace_underscore key) +:+ ": " +:+ format_jvalue val)
       :: drawn.1, drawn.2)
  end.

(** Every call made on the canvas [p], in order. *)
Definition report_ops (pred : Prediction) (user : User) : list canvas_op :=
  let drawn := draw_inputs (600 - 20) (input_json pred) in
  let y1 := drawn.2 - 25 in
  let y2 := y1 - 30 in
  [ setFont "Helvetica-Bold" 24;
    drawString 100 750 "TrustBridge Bank";
    setFont "Helvetica" 12;
    drawString 100 735 "Official Financial Analysis Report";
    line 100 730 500 730;
    setFont "Helvetica-Bold" 12;
    drawString 100 700 ("Report ID: TB-" +:+ format_04d (pred_id pred));
    drawString 100 685 ("Date: " +:+ strftime (timestamp pred));
    drawString 100 670 ("Client Name: " +:+ full_name user);
    setFont "Helvetica-Bold" 14;
    drawString 100 630 ("Analysis Type: " +:+ title (type pred) +:+ " Prediction");
    setFont "Helvetica" 12;
    drawString 100 600 "Input Parameters:" ]
  ++ drawn.1 ++
  [ setFont "Helvetica-Bold" 16;
    setFillColorRGB 0.06%Q 0.09%Q 0.16%Q;
    drawString 100 y1 ("FINAL DETERMINATION: " +:+ result_text pred);
    setFont "Helvetica-Oblique" 12;
    setFillColor "black";
    drawString 100 y2
      ("Analytical Confidence: " +:+ float_repr (confidence pred) +:+ "%");
    setFont "Helvetica" 8;
    drawString 100 50
      "DISCLAIMER: This report is for advisory purposes only. Not a formal financial commitment.";
    drawString 100 40 "TrustBridge Bank © 2026. All Rights Reserved.";
    showPage ].

Definition download_report (env : Env) (w : World) (prediction_id : Z)
  : World * response :=
  match current_user env with
  | None => (w, Redirect "login")
  | Some user =>
      match query_get (Prediction_table w) prediction_id with
      | None => (w, NotFound404)
      | Some pred =>
          if decide (user_id pred ≠ User_id user)
          then (w, Unauthorized403)
          else (w, SendFile
                     (canvas_save (utcnow env) LETTER (report_ops pred user))
                     ("TrustBridge_Report_" +:+ pretty (pred_id pred) +:+ ".pdf")
                     "application/pdf")
      end
  end.

(** ** The service as a transition system *)

Inductive request : Type :=
| PredictHouse (form : gmap string string)
| PredictLoan (form : gmap string string)
| Dashboard
| DownloadReport (prediction_id : Z).

Definition handle (env : Env) (w : World) (req : request) : World * response :=
  match req with
  | PredictHouse form => predict_house env w form
  | PredictLoan form => predict_loan env w form
  | Dashboard => dashboard env w
  | DownloadReport prediction_id => download_report env w prediction_id
  end.

(** The state after a sequence of requests, each served in its own
    environment (disk contents, clock, logged-in user). *)
Fixpoint run (w : World) (trace : list (Env * request)) : World :=
  match trace with
  | [] => w
  | (env, req) :: rest => run (handle env w req).1 rest
  end.

(** The process starts with both model globals [None]. *)
Definition boot (table : list Prediction) : World :=
  {| house_model := None; loan_model := None; Prediction_table := table |}.

(** ** Vocabulary of the statements *)

(** The model that serves a request: the cached one, or, when the global
    is still [None], the one unpickled from [path] by this request. *)
Definition serving (cached : option Model) (env : Env) (path : string)
    (m : Model) : Prop :=
  cached = Some m ∨ (cached = None ∧ disk env path = Pickle m).

(** The row a successful request stores. *)
Definition stored_row (env : Env) (w : World) (user : User)
    (kind : string) (snapshot : list (string * jvalue)) (text : string)
  : Prediction :=
  {| pred_id := next_id (Prediction_table w);
     type := kind;
     input_json := snapshot;
     result_text := text;
     confidence := float_literal 94.2%Q;
     timestamp := utcnow env;
     user_id := User_id user |}.

Definition house_fields : list string :=
  ["bedrooms"; "bathrooms"; "flat_area"; "lot_area"; "condition"; "grade";
   "zipcode"].

Definition loan_numeric_fields : list string :=
  ["applicant_income"; "coapplicant_income"; "loan_amount"; "loan_term";
   "credit_history"].

Definition loan_raw_fields : list string :=
  ["property_area"; "married"; "education"].

Definition set_disk (env : Env) (d : string → file) : Env :=
  {| disk := d; utcnow := utcnow env; current_user := current_user env |}.


(** [float(request.form[k])] for the fields [k] of a list, in order, as the
    dict displays of the two routes evaluate them. *)
Fixpoint form_floats (form : gmap string string) (fields : list string)
  : result (list pyfloat) :=
  match fields with
  | [] => Return []
  | k :: ks =>
      x ← form_float form k;
      xs ← form_floats form ks;
      mret (x :: xs)
  end.


(** The required numeric fields of a list that are missing or do not
    parse. *)
Definition failing_fields (form : gmap string string) (fields : list string)
  : list string :=
  List.filter
    (λ k, match form_float form k with Raise _ => true | Return _ => false end)
    fields.


(** The bytes of a response that sends a file. *)
Definition sent_body (r : response) : list Byte.byte :=
  match r with
  | SendFile body _ _ => body
  | _ => []
  end.


(** What the two scoring routes store: the kind, the keys of the
    snapshot and the shape of the result text. *)
Definition route_row (row : Prediction) : Prop :=
  (type row = "house"
   ∧ (input_json row).*1 = house_fields
   ∧ ∃ amount, result_text row = "$" +:+ amount)
  ∨ (type row = "loan"
     ∧ (input_json row).*1 = loan_numeric_fields ++ loan_raw_fields
     ∧ (result_text row = APPROVED ∨ result_text row = FLAGGED)).

(** The label drawn for a snapshot entry. *)
Definition input_line (kv : string * jvalue) : string :=
  "- " +:+ title (replace_underscore kv.1) +:+ ": " +:+ format_jvalue kv.2.


(** Where a drawing call puts text: on one of the two footer lines, or in
    the body of the page between the confidence line of an eight-entry
    report and the title. *)
Definition in_footer_or_body (op : canvas_op) : Prop :=
  match op with
  | drawString _ y _ => y = 50 ∨ y = 40 ∨ 405 ≤ y ≤ 750
  | _ => True
  end.

(** The name under which a report is sent. *)
Definition report_name (i : Z) : string :=
  "TrustBridge_Report_" +:+ pretty i +:+ ".pdf".


End Service.

(** ** Training-time encoders (generate_models.py)

    [df[col].map(d)] sends a cell to its image under the dict [d], and to a
    missing value when the cell is not a key of [d]; the dicts are the
    finite maps below. *)

Definition train_married : gmap string Z :=
  <["No" := 0]> (<["Yes" := 1]> ∅).

Definition train_education : gmap string Z :=
  <["Not Graduate" := 0]> (<["Graduate" := 1]> ∅).

Definition train_property_area : gmap string Z :=
  <["Rural" := 2]> (<["Semiurban" := 1]> (<["Urban" := 0]> ∅)).

(** ** Accounts: the [User] table, [register], [login], [logout]

    [werkzeug.security] is taken as an interface; [generate_password_hash]
    draws a random salt, which is its second argument here. *)

Class PasswordHasher := {
  generate_password_hash : string → string → string;
  check_password_hash : string → string → bool
}.

Section Accounts.
Context `{PasswordHasher}.

(** A row of the [User] table; [identity] holds the columns [id] and
    [full_name], which are what the other routes read. *)
Record UserRow : Type := {
  identity : User;
  username : string;
  email : string;
  password_hash : string
}.

Inductive method : Type := GET | POST.

(** What an account route answers: a rendered template or a redirect,
    with the message flashed on the way, or an error response raised
    outside any handler. *)
Inductive page : Type :=
| Template (name : string) (flashed : option (string * string))
| RedirectTo (endpoint : string) (flashed : option (string * string))
| BadRequest400
| IntegrityError500.

(** [User.query.filter_by(username=name).first()] *)
Definition by_username (users : list UserRow) (name : string)
  : option UserRow :=
  List.find (λ u, bool_decide (username u = name)) users.

(** [load_user]: [User.query.get(int(user_id))] *)
Definition load_user (users : list UserRow) (uid : Z) : option User :=
  identity <$> List.find (λ u, bool_decide (User_id (identity u) = uid)) users.

Definition next_user_id (users : list UserRow) : Z :=
  match (λ u, User_id (identity u)) <$> users with
  | [] => 1
  | i :: ids => 1 + foldr Z.max i ids
  end.

(** [user.check_password(password)] *)
Definition check_password (user : UserRow) (password : string) : bool :=
  check_password_hash (password_hash user) password.

(** The [register] route.  A field missing from the form raises
    [BadRequestKeyError] outside any handler (response 400); the unique
    constraint on [email] is checked by the database at commit. *)
Definition register (salt : string) (users : list UserRow) (m : method)
    (form : gmap string string) : list UserRow * page :=
  match m with
  | GET => (users, Template "register.html" None)
  | POST =>
      match form !! "username" with
      | None => (users, BadRequest400)
      | Some name =>
          match by_username users name with
          | Some _ =>
              (users,
               RedirectTo "register" (Some ("Username already exists", "danger")))
          | None =>
              match form !! "email", form !! "full_name", form !! "password" with
              | Some mail, Some full, Some password =>
                  if bool_decide (mail ∈ email <$> users)
                  then (users, IntegrityError500)
                  else
                    (users
                     ++ [{| identity := {| User_id := next_user_id users;
                                           full_name := full |};
                            username := name;
                            email := mail;
                            password_hash :=
                              generate_password_hash password salt |}],
                     RedirectTo "login"
                                (Some ("Registration successful!", "success")))
              | _, _, _ => (users, BadRequest400)
              end
          end
      end
  end.

Definition INVALID_CREDENTIALS : string * string :=
  ("Security Alert: Invalid credentials provided.", "danger").

(** The [login] route; [session] is the user id kept by the login
    manager for this client.  [user and user.check_password(...)] reads
    the password field only when a user was found. *)
Definition login (users : list UserRow) (session : option Z) (m : method)
    (form : gmap string string) : option Z * page :=
  match m with
  | GET => (session, Template "login.html" None)
  | POST =>
      match form !! "username" with
      | None => (session, BadRequest400)
      | Some name =>
          match by_username users name with
          | None => (session, Template "login.html" (Some INVALID_CREDENTIALS))
          | Some user =>
              match form !! "password" with
              | None => (session, BadRequest400)
              | Some password =>
                  if check_password user password
                  then (Some (User_id (identity user)),
                        RedirectTo "dashboard" None)
                  else (session,
                        Template "login.html" (Some INVALID_CREDENTIALS))
              end
          end
      end
  end.

(** [current_user]: the user the session id loads, if any *)
Definition session_user (users : list UserRow) (session : option Z)
  : option User :=
  session ≫= load_user users.

Definition LOGIN_REQUIRED : page :=
  RedirectTo "login" (Some ("Please log in to access this page.", "message")).

(** The [logout] route, under [login_required] *)
Definition logout (users : list UserRow) (session : option Z)
  : option Z * page :=
  match session_user users session with
  | None => (session, LOGIN_REQUIRED)
  | Some _ =>
      (None,
       RedirectTo "index" (Some ("You have been securely logged out.", "info")))
  end.

(** The [index] route *)
Definition index (users : list UserRow) (session : option Z) : page :=
  match session_user users session with
  | Some _ => RedirectTo "dashboard" None
  | None => Template "landing.html" None
  end.

(** The constraints of the [User] table: unique user names, unique
    e-mail addresses, unique primary keys. *)
Definition users_ok (users : list UserRow) : Prop :=
  NoDup (username <$> users)
  ∧ NoDup (email <$> users)
  ∧ NoDup ((λ u, User_id (identity u)) <$> users).

(** The table after a sequence of calls of [register]. *)
Fixpoint register_all (users : list UserRow)
    (calls : list (string * method * gmap string string)) : list UserRow :=
  match calls with
  | [] => users
  | (salt, m, form) :: rest => register_all (register salt users m form).1 rest
  end.


End Accounts.

(** The environment in which a scoring, dashboard or report request of a
    client runs: [current_user] is what its session loads. *)
Definition client_env `{Platform} (users : list UserRow) (session : option Z)
    (d : string → file) (now : Z) : Env :=
  {| disk := d; utcnow := now; current_user := session_user users session |}.


(** ** A reference platform

    An executable instance of the platform interface, used to run the
    service on concrete requests.  Floats are the rationals they denote.
    It agrees with CPython, werkzeug (outside debug mode) and the C library
    on the inputs the examples below use: [float] and [str] on plain decimal
    numerals [[+-]digits[.digits]] of at most 15 significant digits and on
    the text [abc] (which [float] rejects), [,.2f] on such values with at
    most two decimals, and [strftime] on years 1000 to 9999.
    (Negative zero is not represented.)
    [canvas_save] is a miniature PDF writer: like the real one in its
    default configuration it records the creation time in the document
    information, followed by the page content. *)

Module Ref.

Definition digit (c : ascii) : option Z :=
  let n := nat_of_ascii c in
  if (48 <=? n)%nat && (n <=? 57)%nat then Some (Z.of_nat n - 48) else None.

(** the value of a run of digits appended to [acc]; [None] on another
    character *)
Fixpoint digits (acc : Z) (s : string) : option Z :=
  match s with
  | EmptyString => Some acc
  | String c s' =>
      match digit c with
      | Some d => digits (10 * acc + d) s'
      | None => None
      end
  end.

(** split at the first dot *)
Fixpoint split_dot (s : string) : string * option string :=
  match s with
  | EmptyString => (EmptyString, None)
  | String c s' =>
      if Ascii.eqb c "."%char then (EmptyString, Some s')
      else let r := split_dot s' in (String c r.1, r.2)
  end.

Definition unsigned (s : string) : option Q :=
  let parts := split_dot s in
  let frac := default EmptyString parts.2 in
  if (String.length parts.1 + String.length frac =? 0)%nat then None
  else
    ip ← digits 0 parts.1;
    n ← digits ip frac;
    Some (Qred (n # Pos.of_nat (Nat.pow 10 (String.length frac)))).

Definition to_float (s : string) : result Q :=
  let parsed :=
    match s with
    | String "-" s' => Qopp <$> unsigned s'
    | String "+" s' => unsigned s'
    | _ => unsigned s
    end in
  match parsed with
  | Some q => Return q
  | None => Raise ("could not convert string to float: '" +:+ s +:+ "'")
  end.

(** the decimals of [r / d] for [0 <= r < d], at most [fuel] of them *)
Fixpoint decimals (fuel : nat) (r d : Z) : string :=
  match fuel with
  | O => EmptyString
  | S fuel' =>
      if r =? 0 then EmptyString
      else pretty (10 * r / d) +:+ decimals fuel' (10 * r mod d) d
  end.

Definition repr (q : Q) : string :=
  let n := Z.abs (Qnum q) in
  let d := Z.pos (Qden q) in
  let frac := decimals 17 (n mod d) d in
  (if Qnum q <? 0 then "-" else EmptyString)
  +:+ pretty (n / d) +:+ "."
  +:+ (if (String.length frac =? 0)%nat then "0" else frac).

(** [n] in groups of three digits *)
Fixpoint grouped (fuel : nat) (n : Z) : string :=
  match fuel with
  | O => pretty n
  | S fuel' =>
      if n <? 1000 then pretty n
      else
        let low := pretty (n mod 1000) in
        grouped fuel' (n / 1000) +:+ "," +:+ zeros (3 - String.length low) +:+ low
  end.

Definition comma_2f (q : Q) : string :=
  let cents := Z.abs (Qnum q) * 200 / Z.pos (Qden q) in
  let cents := (cents + 1) / 2 in
  let low := pretty (cents mod 100) in
  (if Qnum q <? 0 then "-" else EmptyString)
  +:+ grouped 20 (cents / 100) +:+ "." +:+ zeros (2 - String.length low) +:+ low.

Definition key_error (k : string) : string :=
  "400 Bad Request: The browser (or proxy) sent a request that this server could not understand.".

Definition two (n : Z) : string :=
  let s := pretty n in zeros (2 - String.length s) +:+ s.

(** the civil date of a day number counted from 1970-01-01 *)
Definition civil (day : Z) : Z * Z * Z :=
  let z := day + 719468 in
  let era := z / 146097 in
  let doe := z - era * 146097 in
  let yoe := (doe - doe / 1460 + doe / 36524 - doe / 146096) / 365 in
  let doy := doe - (365 * yoe + yoe / 4 - yoe / 100) in
  let mp := (5 * doy + 2) / 153 in
  let d := doy - (153 * mp + 2) / 5 + 1 in
  let m := if mp <? 10 then mp + 3 else mp - 9 in
  (yoe + era * 400 + (if m <=? 2 then 1 else 0), m, d).

Definition time_text (t : Z) : string :=
  let s := t / 1000000 in
  let '(y, m, d) := civil (s / 86400) in
  let r := s mod 86400 in
  pretty y +:+ "-" +:+ two m +:+ "-" +:+ two d +:+ " "
  +:+ two (r / 3600) +:+ ":" +:+ two (r mod 3600 / 60) +:+ ":" +:+ two (r mod 60).

Definition show_op (op : canvas_op) : string :=
  match op with
  | setFont f n => "/" +:+ f +:+ " " +:+ pretty n +:+ " Tf"
  | drawString x y t => pretty x +:+ " " +:+ pretty y +:+ " Td (" +:+ t +:+ ") Tj"
  | line a b c d =>
      pretty a +:+ " " +:+ pretty b +:+ " m " +:+ pretty c +:+ " " +:+ pretty d +:+ " l S"
  | setFillColorRGB r g b =>
      repr r +:+ " " +:+ repr g +:+ " " +:+ repr b +:+ " rg"
  | setFillColor c => "/" +:+ c +:+ " rg"
  | showPage => "showpage"
  end.

Definition save (now : Z) (pagesize : Z * Z) (ops : list canvas_op)
  : list Byte.byte :=
  String.list_byte_of_string
    ("%PDF-1.3 /CreationDate (" +:+ time_text now +:+ ") /MediaBox [0 0 "
     +:+ pretty pagesize.1 +:+ " " +:+ pretty pagesize.2 +:+ "]"
     +:+ foldr (λ op rest, " " +:+ show_op op +:+ rest) EmptyString ops).

Definition platform : Platform :=
  {| pyfloat := Q;
     float_ := to_float;
     float_literal := Qred;
     float_of_int := inject_Z;
     float_eq_int := λ q n, Qeq_bool q (inject_Z n);
     float_repr := repr;
     format_comma_2f := comma_2f;
     missing_key := key_error;
     strftime := time_text;
     canvas_save := save |}.

End Ref.

(** ** Concrete requests, models and environments *)

Module Sample.
#[local] Existing Instance Ref.platform.

Definition house_form : gmap string string :=
  list_to_map
    [ ("bedrooms", "3"); ("bathrooms", "2"); ("flat_area", "1800");
      ("lot_area", "5000"); ("condition", "4"); ("grade", "7");
      ("zipcode", "98001") ].

Definition loan_form : gmap string string :=
  list_to_map
    [ ("applicant_income", "5000"); ("coapplicant_income", "0");
      ("loan_amount", "120"); ("loan_term", "360"); ("credit_history", "1");
      ("property_area", "Rural"); ("married", "Yes");
      ("education", "Graduate") ].

(** a model that answers every row with the one-entry array [[s]] *)
Definition constant_model (s : scalar) : Model :=
  {| predict := λ _, Return [s] |}.

Definition alice : User := {| User_id := 1; full_name := "Alice Martin" |}.
Definition bob : User := {| User_id := 2; full_name := "Bob Stone" |}.

(** no artifact on disk *)
Definition empty_disk : string → file := λ _, Absent.

(** both artifacts on disk, each a constant model *)
Definition disk_with (house loan : scalar) : string → file :=
  λ path,
    if decide (path = HOUSE_MODEL_PATH) then Pickle (constant_model house)
    else if decide (path = LOAN_MODEL_PATH) then Pickle (constant_model loan)
    else Absent.

Definition env_at (d : string → file) (now : Z) (user : User) : Env :=
  {| disk := d; utcnow := now; current_user := Some user |}.

(** 2023-11-14 22:13:20 UTC and one minute later, in microseconds *)
Definition t0 : Z := 1700000000000000.
Definition t1 : Z := 1700000060000000.


(** the house model answers 350000, the loan model the class [class] *)
Definition appraisal : scalar := SFloat 350000%Q.

Definition env_class (class : Z) (now : Z) (user : User) : Env :=
  env_at (disk_with appraisal (SInt class)) now user.

(** the state after Alice's house request at [t0], and the row it stored *)
Definition after_house : World :=
  (predict_house (env_class 1 t0 alice) (boot []) house_form).1.

Definition house_row : Prediction :=
  {| pred_id := 1;
     type := "house";
     input_json :=
       [ ("bedrooms", JFloat 3%Q); ("bathrooms", JFloat 2%Q);
         ("flat_area", JFloat 1800%Q); ("lot_area", JFloat 5000%Q);
         ("condition", JFloat 4%Q); ("grade", JFloat 7%Q);
         ("zipcode", JFloat 98001%Q) ];
     result_text := "$350,000.00";
     confidence := Qred 94.2%Q;
     timestamp := t0;
     user_id := 1 |}.

Definition loan_record : LoanData :=
  {| applicant_income := 5000%Q; coapplicant_income := 0%Q;
     loan_amount := 120%Q; loan_term := 360%Q; credit_history := 1%Q;
     property_area := "Rural"; married := "Yes"; education := "Graduate" |}.

(** later requests: a loan request by Bob, a report and a dashboard view
    by Alice *)
Definition later : list (Env * request) :=
  [ (env_class 0 t1 bob, PredictLoan loan_form);
    (env_at empty_disk t1 alice, DownloadReport 1);
    (env_at empty_disk t1 alice, Dashboard) ].


(** the house form with one field replaced *)
Definition bad_bedrooms : gmap string string :=
  <["bedrooms" := "abc"]> house_form.
Definition bad_bathrooms : gmap string string :=
  <["bathrooms" := "abc"]> house_form.
Definition bedrooms_3_0 : gmap string string :=
  <["bedrooms" := "3.0"]> house_form.

Definition offline_house : string :=
  "System Upgrade in Progress: House Model currently offline.".

End Sample.

(** ** A reference password hasher and sample accounts

    A transparent stand-in for [werkzeug.security], used to run the account
    routes on concrete forms: the hash is the password followed by the
    salt.  It has the one property the statements below assume of a
    hasher, that a hash verifies against the password it was made from. *)

Module RefHasher.

Definition generate (password salt : string) : string :=
  password +:+ "$" +:+ salt.

Definition check (hash password : string) : bool :=
  String.prefix (password +:+ "$") hash.

Definition hasher : PasswordHasher :=
  {| generate_password_hash := generate; check_password_hash := check |}.

End RefHasher.

Module SampleUsers.
#[local] Existing Instance Ref.platform.
#[local] Existing Instance RefHasher.hasher.

Definition alice_signup : gmap string string :=
  list_to_map
    [ ("username", "alice"); ("email", "alice@example.org");
      ("full_name", "Alice Martin"); ("password", "correct horse") ].

Definition bob_signup : gmap string string :=
  list_to_map
    [ ("username", "bob"); ("email", "bob@example.org");
      ("full_name", "Bob Stone"); ("password", "battery staple") ].

Definition alice_login : gmap string string :=
  list_to_map [ ("username", "alice"); ("password", "correct horse") ].

(** the table after Alice registered, and after Bob registered too *)
Definition one_user : list UserRow :=
  (register "salt-a" [] POST alice_signup).1.

Definition later_signups : list (string * method * gmap string string) :=
  [ ("salt-b", POST, bob_signup); ("salt-c", POST, alice_signup) ].

Definition two_users : list UserRow := register_all one_user later_signups.

Definition alice_row : UserRow :=
  {| identity := Sample.alice;
     username := "alice";
     email := "alice@example.org";
     password_hash := "correct horse$salt-a" |}.

(** a request of a client that is not logged in *)
Definition anonymous : Env :=
  client_env two_users None Sample.empty_disk Sample.t0.

(** a model that raises, and a disk with an unreadable house artifact *)
Definition failing_model : Model :=
  {| predict := λ _, Raise "X has 7 features, but LinearRegression is expecting 6 features as input." |}.

Definition failing_env : Env :=
  Sample.env_at (λ _, Pickle failing_model) Sample.t0 Sample.alice.

Definition unreadable_env : Env :=
  Sample.env_at (λ _, Unreadable "invalid load key") Sample.t0 Sample.alice.

Definition house_data_3 : HouseData :=
  {| bedrooms := 3%Q; bathrooms := 2%Q; flat_area := 1800%Q;
     lot_area := 5000%Q; condition := 4%Q; grade := 7%Q;
     zipcode := 98001%Q |}.

End SampleUsers.


(** * Properties *)

Section Properties.
Context `{Platform}.

(** ** The [try] block as a sequence of fallible steps *)

Lemma bind_Return {A B : Type} (c : result A) (k : A → result B) (b : B) :
  c ≫= k = Return b → ∃ a, c = Return a ∧ k a = Return b.
Proof. destruct c as [msg|a]; [discriminate | eauto]. Qed.

Lemma bind_Raise {A B : Type} (c : result A) (k : A → result B) (msg : string) :
  c ≫= k = Raise msg → c = Raise msg ∨ ∃ a, c = Return a ∧ k a = Raise msg.
Proof.
  destruct c as [msg'|a]; intros Hc; [left | right].
  - injection Hc as ->. reflexivity.
  - exists a. auto.
Qed.

Lemma form_float_Return (form : gmap string string) (k : string) (x : pyfloat) :
  form_float form k = Return x →
  ∃ raw, form !! k = Some raw ∧ float_ raw = Return x.
Proof.
  unfold form_float, form_get. destruct (form !! k) as [raw|]; [|discriminate].
  intros Hx. exists raw. auto.
Qed.

Lemma form_get_Return (form : gmap string string) (k raw : string) :
  form_get form k = Return raw ↔ form !! k = Some raw.
Proof.
  unfold form_get. destruct (form !! k); split; congruence.
Qed.

(** A failing field reports either the missing key or what [float] says
    about the raw value, the field name not being an input of [float]. *)
Lemma form_float_Raise (form : gmap string string) (k msg : string) :
  form_float form k = Raise msg →
  (form !! k = None ∧ msg = missing_key k)
  ∨ (∃ raw, form !! k = Some raw ∧ float_ raw = Raise msg).
Proof.
  unfold form_float, form_get. destruct (form !! k) as [raw|]; simpl.
  - right. eauto.
  - left. split; congruence.
Qed.

Ltac in_list := repeat constructor.

Ltac split_bind Hyp :=
  repeat
    (let a := fresh "v" in
     let Ha := fresh "Hv" in
     apply bind_Return in Hyp as (a & Ha & Hyp)).

Lemma house_data_Return (form : gmap string string) (data : HouseData) :
  house_data form = Return data →
  Forall (λ kx, form_float form kx.1 = Return kx.2) (house_items data).
Proof.
  unfold house_data. intros Hd. split_bind Hd.
  injection Hd as <-. unfold house_items. simpl.
  repeat (constructor; [assumption|]). constructor.
Qed.

Lemma loan_data_Return (form : gmap string string) (data : LoanData) :
  loan_data form = Return data →
  form_float form "applicant_income" = Return (applicant_income data)
  ∧ form_float form "coapplicant_income" = Return (coapplicant_income data)
  ∧ form_float form "loan_amount" = Return (loan_amount data)
  ∧ form_float form "loan_term" = Return (loan_term data)
  ∧ form_float form "credit_history" = Return (credit_history data)
  ∧ form !! "property_area" = Some (property_area data)
  ∧ form !! "married" = Some (married data)
  ∧ form !! "education" = Some (education data).
Proof.
  unfold loan_data. intros Hd. split_bind Hd.
  injection Hd as <-. simpl.
  rewrite <- !form_get_Return. tauto.
Qed.

(** ** Loan features *)

Lemma area_map_lookup (s : string) :
  area_map !! s =
    if decide (s = "Rural") then Some 2
    else if decide (s = "Semiurban") then Some 1
    else if decide (s = "Urban") then Some 0
    else None.
Proof.
  unfold area_map.
  repeat (rewrite lookup_insert; case_decide; subst;
          [repeat case_decide; congruence|]).
  rewrite lookup_empty. repeat case_decide; congruence.
Qed.

(** C1. For every loan build, the last three features are the encoded
    [property_area] (0 for "Urban", 1 for "Semiurban", 2 for "Rural", 0 for
    any other raw string), [married] (1 exactly when the raw value is
    "Yes", otherwise 0) and [education] (1 exactly when the raw value is
    "Graduate", otherwise 0); so "Rural", "Yes", "Graduate" give the tail
    [2, 1, 1]. *)
Theorem loan_encoding_tail (form : gmap string string) (data : LoanData) :
  loan_data form = Return data →
  ∃ pa ma ed area m e,
    form !! "property_area" = Some pa
    ∧ form !! "married" = Some ma
    ∧ form !! "education" = Some ed
    ∧ drop 5 (loan_features data) = [SInt area; SInt m; SInt e]
    ∧ (pa = "Urban" → area = 0)
    ∧ (pa = "Semiurban" → area = 1)
    ∧ (pa = "Rural" → area = 2)
    ∧ (pa ≠ "Urban" → pa ≠ "Semiurban" → pa ≠ "Rural" → area = 0)
    ∧ (m = 1 ↔ ma = "Yes") ∧ (m = 0 ↔ ma ≠ "Yes")
    ∧ (e = 1 ↔ ed = "Graduate") ∧ (e = 0 ↔ ed ≠ "Graduate")
    ∧ (pa = "Rural" → ma = "Yes" → ed = "Graduate" →
       drop 5 (loan_features data) = [SInt 2; SInt 1; SInt 1]).
Proof.
  intros Hd. apply loan_data_Return in Hd as (_ & _ & _ & _ & _ & Hpa & Hma & Hed).
  exists (property_area data), (married data), (education data).
  eexists _, _, _. repeat split; try eassumption; try reflexivity;
    simpl; rewrite ?area_map_lookup;
    repeat case_decide; simpl; intros; subst; congruence || lia.
Qed.

(** ** The two scoring routes, step by step *)

Lemma set_house_model_same (w : World) (m : Model) :
  house_model w = Some m → set_house_model w (Some m) = w.
Proof. destruct w; simpl; intros ->; reflexivity. Qed.

Lemma set_loan_model_same (w : World) (m : Model) :
  loan_model w = Some m → set_loan_model w (Some m) = w.
Proof. destruct w; simpl; intros ->; reflexivity. Qed.

Lemma predict_house_serving env w form user m :
  current_user env = Some user →
  serving (house_model w) env HOUSE_MODEL_PATH m →
  predict_house env w form
  = house_scoring m user env (set_house_model w (Some m)) form.
Proof.
  intros Hu [Hm | [Hm Hd]]; unfold predict_house; rewrite Hu, Hm.
  - rewrite set_house_model_same by assumption. reflexivity.
  - unfold load_model. rewrite Hd. reflexivity.
Qed.

Lemma predict_loan_serving env w form user m :
  current_user env = Some user →
  serving (loan_model w) env LOAN_MODEL_PATH m →
  predict_loan env w form
  = loan_scoring m user env (set_loan_model w (Some m)) form.
Proof.
  intros Hu [Hm | [Hm Hd]]; unfold predict_loan; rewrite Hu, Hm.
  - rewrite set_loan_model_same by assumption. reflexivity.
  - unfold load_model. rewrite Hd. reflexivity.
Qed.

Lemma house_try_Return m user env w form table' page :
  house_try m user (utcnow env) (Prediction_table w) form = Return (table', page) →
  ∃ data p0 rest,
    house_data form = Return data
    ∧ predict m (house_features data) = Return (p0 :: rest)
    ∧ let text := "$" +:+ format_comma_2f (scalar_float p0) in
      table' = Prediction_table w
               ++ [stored_row env w user "house" (house_json data) text]
      ∧ page = ResultPage text "Real Estate Appraisal" "house" house_explain
                          (next_id (Prediction_table w)).
Proof.
  unfold house_try. intros Ht. split_bind Ht.
  destruct v0 as [|p0 rest]; [discriminate|].
  injection Hv1 as <-. injection Ht as <- <-.
  exists v, p0, rest. auto.
Qed.

Lemma loan_try_Return m user env w form table' page :
  loan_try m user (utcnow env) (Prediction_table w) form = Return (table', page) →
  ∃ data p0 rest,
    loan_data form = Return data
    ∧ predict m (loan_features data) = Return (p0 :: rest)
    ∧ let text := if scalar_eq_int p0 1 then APPROVED else FLAGGED in
      table' = Prediction_table w
               ++ [stored_row env w user "loan" (loan_json data) text]
      ∧ page = ResultPage text "Loan Eligibility Analysis" "loan" loan_explain
                          (next_id (Prediction_table w)).
Proof.
  unfold loan_try. intros Ht. split_bind Ht.
  destruct v0 as [|p0 rest]; [discriminate|].
  injection Hv1 as <-. injection Ht as <- <-.
  exists v, p0, rest. auto.
Qed.

Lemma house_scoring_Raise m user env w form msg :
  house_try m user (utcnow env) (Prediction_table w) form = Raise msg →
  house_scoring m user env w form
  = (w, ResultError ("Data processing error: " +:+ msg)).
Proof. unfold house_scoring. intros ->. reflexivity. Qed.

Lemma loan_scoring_Raise m user env w form msg :
  loan_try m user (utcnow env) (Prediction_table w) form = Raise msg →
  loan_scoring m user env w form
  = (w, ResultError ("Analysis engine error: " +:+ msg)).
Proof. unfold loan_scoring. intros ->. reflexivity. Qed.

Lemma house_try_data_Raise m user now table form msg :
  house_data form = Raise msg → house_try m user now table form = Raise msg.
Proof. unfold house_try. intros ->. reflexivity. Qed.

Lemma loan_try_data_Raise m user now table form msg :
  loan_data form = Raise msg → loan_try m user now table form = Raise msg.
Proof. unfold loan_try. intros ->. reflexivity. Qed.

(** ** Scoring *)

(** C2 (as the code has it). For every loan scoring the label is decided
    by the test [prediction[0] == 1] alone: output 1 gives the "Approved"
    label, and every other output, 0 or not, gives the "Flagged for Review"
    label; the request succeeds and the labelled result is stored. *)
Theorem loan_label_by_equality_with_1 env w form user m data p0 rest :
  current_user env = Some user →
  serving (loan_model w) env LOAN_MODEL_PATH m →
  loan_data form = Return data →
  predict m (loan_features data) = Return (p0 :: rest) →
  ∃ text,
    predict_loan env w form
    = (set_table (set_loan_model w (Some m))
         (Prediction_table w
          ++ [stored_row env w user "loan" (loan_json data) text]),
       ResultPage text "Loan Eligibility Analysis" "loan" loan_explain
                  (next_id (Prediction_table w)))
    ∧ text = (if scalar_eq_int p0 1 then APPROVED else FLAGGED)
    ∧ (p0 = SInt 1 → text = APPROVED)
    ∧ (∀ z, p0 = SInt z → z ≠ 1 → text = FLAGGED).
Proof.
  intros Hu Hm Hd Hp.
  exists (if scalar_eq_int p0 1 then APPROVED else FLAGGED).
  split; [|split; [reflexivity|split]].
  - rewrite (predict_loan_serving _ _ _ _ _ Hu Hm).
    unfold loan_scoring, loan_try. rewrite Hd. simpl. rewrite Hp. reflexivity.
  - intros ->. reflexivity.
  - intros z -> Hz. simpl. rewrite bool_decide_eq_false_2 by assumption.
    reflexivity.
Qed.

Lemma house_scoring_page_or_same m user env w form :
  (∃ text ttl ty ex i,
     (house_scoring m user env w form).2 = ResultPage text ttl ty ex i)
  ∨ Prediction_table (house_scoring m user env w form).1 = Prediction_table w.
Proof.
  unfold house_scoring.
  destruct (house_try _ _ _ _ _) as [msg|[table' page]] eqn:Ht; simpl.
  - right. reflexivity.
  - apply house_try_Return in Ht as (data & p0 & rest & _ & _ & _ & ->).
    left. eauto 6.
Qed.

Lemma loan_scoring_page_or_same m user env w form :
  (∃ text ttl ty ex i,
     (loan_scoring m user env w form).2 = ResultPage text ttl ty ex i)
  ∨ Prediction_table (loan_scoring m user env w form).1 = Prediction_table w.
Proof.
  unfold loan_scoring.
  destruct (loan_try _ _ _ _ _) as [msg|[table' page]] eqn:Ht; simpl.
  - right. reflexivity.
  - apply loan_try_Return in Ht as (data & p0 & rest & _ & _ & _ & ->).
    left. eauto 6.
Qed.

(** A row is stored only by a request that ends in the result page. *)
Lemma handle_page_or_same env w req :
  (∃ text ttl ty ex i, (handle env w req).2 = ResultPage text ttl ty ex i)
  ∨ Prediction_table (handle env w req).1 = Prediction_table w.
Proof.
  destruct req as [form|form| |i]; simpl.
  - unfold predict_house.
    destruct (current_user env) as [user|]; [|right; reflexivity].
    destruct (house_model w) as [m|].
    + apply house_scoring_page_or_same.
    + destruct (load_model _ _) as [?|[m|]]; [right; reflexivity| |
                                              right; reflexivity].
      apply (house_scoring_page_or_same m user env
                                        (set_house_model w (Some m)) form).
  - unfold predict_loan.
    destruct (current_user env) as [user|]; [|right; reflexivity].
    destruct (loan_model w) as [m|].
    + apply loan_scoring_page_or_same.
    + destruct (load_model _ _) as [?|[m|]]; [right; reflexivity| |
                                              right; reflexivity].
      apply (loan_scoring_page_or_same m user env
                                       (set_loan_model w (Some m)) form).
  - right. unfold dashboard. destruct (current_user env); reflexivity.
  - right. unfold download_report.
    destruct (current_user env); [|reflexivity].
    destruct (query_get _ _); [|reflexivity].
    case_decide; reflexivity.
Qed.

(** ** Errors come before the audit record *)

(** C3. A request that ends in the model-offline page (the artifact is
    not loadable) or in the error page of an unparseable or missing
    required field leaves the [Prediction] table, indeed the whole state,
    as it was: no audit record is created.  This holds for both kinds;
    more generally, whatever request does not end in the result page
    stores no row. *)
Theorem errors_leave_no_record env w form user :
  current_user env = Some user →
  (house_model w = None → disk env HOUSE_MODEL_PATH = Absent →
   predict_house env w form
   = (w, ResultError "System Upgrade in Progress: House Model currently offline."))
  ∧ (loan_model w = None → disk env LOAN_MODEL_PATH = Absent →
     predict_loan env w form
     = (w, ResultError "System Upgrade in Progress: Loan Engine currently offline."))
  ∧ (∀ m msg, serving (house_model w) env HOUSE_MODEL_PATH m →
       house_data form = Raise msg →
       (predict_house env w form).2
       = ResultError ("Data processing error: " +:+ msg)
       ∧ Prediction_table (predict_house env w form).1 = Prediction_table w)
  ∧ (∀ m msg, serving (loan_model w) env LOAN_MODEL_PATH m →
       loan_data form = Raise msg →
       (predict_loan env w form).2
       = ResultError ("Analysis engine error: " +:+ msg)
       ∧ Prediction_table (predict_loan env w form).1 = Prediction_table w)
  ∧ (∀ req,
       (∀ text ttl ty ex i,
          (handle env w req).2 ≠ ResultPage text ttl ty ex i) →
       Prediction_table (handle env w req).1 = Prediction_table w).
Proof.
  intros Hu. split; [|split; [|split; [|split]]].
  - intros Hm Hd. unfold predict_house, load_model. rewrite Hu, Hm, Hd.
    reflexivity.
  - intros Hm Hd. unfold predict_loan, load_model. rewrite Hu, Hm, Hd.
    reflexivity.
  - intros m msg Hm Hd. rewrite (predict_house_serving _ _ _ _ _ Hu Hm).
    rewrite (house_scoring_Raise _ _ _ _ _ msg)
      by (apply house_try_data_Raise; exact Hd).
    split; reflexivity.
  - intros m msg Hm Hd. rewrite (predict_loan_serving _ _ _ _ _ Hu Hm).
    rewrite (loan_scoring_Raise _ _ _ _ _ msg)
      by (apply loan_try_data_Raise; exact Hd).
    split; reflexivity.
  - intros req Hnopage.
    destruct (handle_page_or_same env w req)
      as [(text & ttl & ty & ex & i & Hpage)|Hsame]; [|exact Hsame].
    destruct (Hnopage _ _ _ _ _ Hpage).
Qed.

Lemma predict_house_ResultPage env w form w' text ttl ty ex i :
  predict_house env w form = (w', ResultPage text ttl ty ex i) →
  ∃ user m data p0 rest,
    current_user env = Some user
    ∧ serving (house_model w) env HOUSE_MODEL_PATH m
    ∧ house_data form = Return data
    ∧ predict m (house_features data) = Return (p0 :: rest)
    ∧ text = "$" +:+ format_comma_2f (scalar_float p0)
    ∧ i = next_id (Prediction_table w)
    ∧ w' = set_table (set_house_model w (Some m))
             (Prediction_table w
              ++ [stored_row env w user "house" (house_json data) text]).
Proof.
  intros Hp.
  assert (∃ user m, current_user env = Some user
                    ∧ serving (house_model w) env HOUSE_MODEL_PATH m)
    as (user & m & Hu & Hm).
  { unfold predict_house, serving, load_model in *.
    destruct (current_user env) as [user|]; [|discriminate].
    destruct (house_model w) as [m|]; [eauto 6|].
    destruct (disk env HOUSE_MODEL_PATH) as [|?|m]; try discriminate.
    eauto 8. }
  rewrite (predict_house_serving _ _ _ _ _ Hu Hm) in Hp.
  unfold house_scoring in Hp.
  destruct (house_try _ _ _ _ _) as [?|[table' page]] eqn:Ht; [discriminate|].
  apply (house_try_Return m user env (set_house_model w (Some m))) in Ht
    as (data & p0 & rest & Hd & Hpr & Ht & Hpage).
  simpl in Ht, Hpage. injection Hp as <- Hpage'. subst.
  injection Hpage' as <- _ _ _ <-.
  exists user, m, data, p0, rest. repeat split; assumption || reflexivity.
Qed.

Lemma predict_loan_ResultPage env w form w' text ttl ty ex i :
  predict_loan env w form = (w', ResultPage text ttl ty ex i) →
  ∃ user m data p0 rest,
    current_user env = Some user
    ∧ serving (loan_model w) env LOAN_MODEL_PATH m
    ∧ loan_data form = Return data
    ∧ predict m (loan_features data) = Return (p0 :: rest)
    ∧ text = (if scalar_eq_int p0 1 then APPROVED else FLAGGED)
    ∧ i = next_id (Prediction_table w)
    ∧ w' = set_table (set_loan_model w (Some m))
             (Prediction_table w
              ++ [stored_row env w user "loan" (loan_json data) text]).
Proof.
  intros Hp.
  assert (∃ user m, current_user env = Some user
                    ∧ serving (loan_model w) env LOAN_MODEL_PATH m)
    as (user & m & Hu & Hm).
  { unfold predict_loan, serving, load_model in *.
    destruct (current_user env) as [user|]; [|discriminate].
    destruct (loan_model w) as [m|]; [eauto 6|].
    destruct (disk env LOAN_MODEL_PATH) as [|?|m]; try discriminate.
    eauto 8. }
  rewrite (predict_loan_serving _ _ _ _ _ Hu Hm) in Hp.
  unfold loan_scoring in Hp.
  destruct (loan_try _ _ _ _ _) as [?|[table' page]] eqn:Ht; [discriminate|].
  apply (loan_try_Return m user env (set_loan_model w (Some m))) in Ht
    as (data & p0 & rest & Hd & Hpr & Ht & Hpage).
  simpl in Ht, Hpage. injection Hp as <- Hpage'. subst.
  injection Hpage' as <- _ _ _ <-.
  exists user, m, data, p0, rest. repeat split; assumption || reflexivity.
Qed.

(** ** The stored snapshot *)

(** C7 (as the code has it). The snapshot stored by a successful request
    is [json.dumps] of the [data] dict the route built: under each numeric
    field name the float that [float] parsed from the submitted string,
    and, for a loan, under [property_area], [married] and [education] the
    submitted strings themselves, not their encoded codes. *)
Theorem snapshot_is_parsed_data env w form w' text ttl ty ex i :
  (predict_house env w form = (w', ResultPage text ttl ty ex i) →
   ∃ row,
     Prediction_table w' = Prediction_table w ++ [row]
     ∧ pred_id row = i
     ∧ (input_json row).*1 = house_fields
     ∧ ∀ k v, (k, v) ∈ input_json row →
         ∃ raw x, form !! k = Some raw ∧ float_ raw = Return x ∧ v = JFloat x)
  ∧ (predict_loan env w form = (w', ResultPage text ttl ty ex i) →
     ∃ row,
       Prediction_table w' = Prediction_table w ++ [row]
       ∧ pred_id row = i
       ∧ (input_json row).*1 = loan_numeric_fields ++ loan_raw_fields
       ∧ ∀ k v, (k, v) ∈ input_json row →
           (k ∈ loan_numeric_fields
            ∧ ∃ raw x, form !! k = Some raw ∧ float_ raw = Return x
                       ∧ v = JFloat x)
           ∨ (k ∈ loan_raw_fields
              ∧ ∃ raw, form !! k = Some raw ∧ v = JStr raw)).
Proof.
  split; intros Hp.
  - apply predict_house_ResultPage in Hp
      as (user & m & data & p0 & rest & _ & _ & Hd & _ & -> & -> & ->).
    eexists. split; [reflexivity|]. split; [reflexivity|].
    split; [reflexivity|].
    apply house_data_Return in Hd. simpl. unfold house_json.
    intros k v (kx & Hkv & Hin)%list_elem_of_fmap. injection Hkv as -> ->.
    rewrite Forall_forall in Hd. apply Hd in Hin.
    apply form_float_Return in Hin as (raw & Hraw & Hx). eauto.
  - apply predict_loan_ResultPage in Hp
      as (user & m & data & p0 & rest & _ & _ & Hd & _ & -> & -> & ->).
    eexists. split; [reflexivity|]. split; [reflexivity|].
    split; [reflexivity|].
    apply loan_data_Return in Hd
      as (H1%form_float_Return & H2%form_float_Return & H3%form_float_Return
          & H4%form_float_Return & H5%form_float_Return & H6 & H7 & H8).
    simpl. unfold loan_json, loan_numeric_fields, loan_raw_fields.
    intros k v Hin.
    repeat (apply elem_of_cons in Hin as [Hin|Hin];
            [injection Hin as -> ->|]).
    + left. split; [in_list|]. destruct H1 as (raw & ? & ?); eauto.
    + left. split; [in_list|]. destruct H2 as (raw & ? & ?); eauto.
    + left. split; [in_list|]. destruct H3 as (raw & ? & ?); eauto.
    + left. split; [in_list|]. destruct H4 as (raw & ? & ?); eauto.
    + left. split; [in_list|]. destruct H5 as (raw & ? & ?); eauto.
    + right. split; [in_list|]. eauto.
    + right. split; [in_list|]. eauto.
    + right. split; [in_list|]. eauto.
    + apply elem_of_nil in Hin. contradiction.
Qed.

(** ** Failing fields *)

Lemma house_data_floats (form : gmap string string) :
  house_data form
  = xs ← form_floats form house_fields;
    match xs with
    | [v1; v2; v3; v4; v5; v6; v7] =>
        Return {| bedrooms := v1; bathrooms := v2; flat_area := v3;
                  lot_area := v4; condition := v5; grade := v6;
                  zipcode := v7 |}
    | _ => Raise EmptyString
    end.
Proof.
  unfold house_data, house_fields, form_floats, mbind, mret, result_bind,
    result_ret.
  repeat (destruct (form_float form _); [reflexivity|]).
  reflexivity.
Qed.

Lemma loan_data_floats (form : gmap string string) :
  loan_data form
  = xs ← form_floats form loan_numeric_fields;
    match xs with
    | [v1; v2; v3; v4; v5] =>
        v6 ← form_get form "property_area";
        v7 ← form_get form "married";
        v8 ← form_get form "education";
        Return {| applicant_income := v1; coapplicant_income := v2;
                  loan_amount := v3; loan_term := v4; credit_history := v5;
                  property_area := v6; married := v7; education := v8 |}
    | _ => Raise EmptyString
    end.
Proof.
  unfold loan_data, loan_numeric_fields, form_floats, mbind, mret,
    result_bind, result_ret.
  repeat (destruct (form_float form _); [reflexivity|]).
  reflexivity.
Qed.

(** The exception that leaves a run of [float(request.form[k])] calls is
    the one of the first field that fails. *)
Lemma form_floats_failure (form : gmap string string) (fields : list string)
    (k msg0 : string) :
  k ∈ fields → form_float form k = Raise msg0 →
  ∃ (n : nat) k' msg,
    fields !! n = Some k'
    ∧ Forall (λ j, ∃ x, form_float form j = Return x) (take n fields)
    ∧ form_float form k' = Raise msg
    ∧ form_floats form fields = Raise msg.
Proof.
  intros Hin Hk. induction fields as [|k0 ks IH].
  - apply elem_of_nil in Hin. contradiction.
  - destruct (form_float form k0) as [msg|x] eqn:Hk0.
    + exists 0%nat, k0, msg. simpl. rewrite Hk0. auto.
    + apply elem_of_cons in Hin as [->|Hin]; [congruence|].
      destruct (IH Hin) as (n & k' & msg & Hn & Hok & Hk' & Hfs).
      exists (S n), k', msg. simpl. rewrite Hk0, Hfs. simpl.
      repeat split; eauto.
Qed.

(** C9 (as the code has it). When a required numeric field is missing or
    does not parse, the request ends in the error page whose text is the
    route's fixed prefix followed by the text of the exception raised at
    the first failing field: the missing-key text, or what [float] says
    about the raw value.  The build is all-or-nothing: no [data] dict is
    produced, and the [Prediction] table is unchanged. *)
Theorem failed_field_error env w form user k msg0 :
  current_user env = Some user →
  form_float form k = Raise msg0 →
  (k ∈ house_fields →
   ∀ m, serving (house_model w) env HOUSE_MODEL_PATH m →
     ∃ (n : nat) k' msg,
       house_fields !! n = Some k'
       ∧ Forall (λ j, ∃ x, form_float form j = Return x) (take n house_fields)
       ∧ ((form !! k' = None ∧ msg = missing_key k')
          ∨ (∃ raw, form !! k' = Some raw ∧ float_ raw = Raise msg))
       ∧ house_data form = Raise msg
       ∧ (predict_house env w form).2
         = ResultError ("Data processing error: " +:+ msg)
       ∧ Prediction_table (predict_house env w form).1 = Prediction_table w)
  ∧ (k ∈ loan_numeric_fields →
     ∀ m, serving (loan_model w) env LOAN_MODEL_PATH m →
       ∃ (n : nat) k' msg,
         loan_numeric_fields !! n = Some k'
         ∧ Forall (λ j, ∃ x, form_float form j = Return x)
                  (take n loan_numeric_fields)
         ∧ ((form !! k' = None ∧ msg = missing_key k')
            ∨ (∃ raw, form !! k' = Some raw ∧ float_ raw = Raise msg))
         ∧ loan_data form = Raise msg
         ∧ (predict_loan env w form).2
           = ResultError ("Analysis engine error: " +:+ msg)
         ∧ Prediction_table (predict_loan env w form).1 = Prediction_table w).
Proof.
  intros Hu Hk. split; intros Hin m Hm.
  - destruct (form_floats_failure form _ k msg0 Hin Hk)
      as (n & k' & msg & Hn & Hok & Hk' & Hfs).
    assert (house_data form = Raise msg) as Hd
      by (rewrite house_data_floats, Hfs; reflexivity).
    exists n, k', msg. repeat split; try assumption.
    + apply form_float_Raise. exact Hk'.
    + rewrite (predict_house_serving _ _ _ _ _ Hu Hm).
      rewrite (house_scoring_Raise _ _ _ _ _ msg)
        by (apply house_try_data_Raise; exact Hd).
      reflexivity.
    + rewrite (predict_house_serving _ _ _ _ _ Hu Hm).
      rewrite (house_scoring_Raise _ _ _ _ _ msg)
        by (apply house_try_data_Raise; exact Hd).
      reflexivity.
  - destruct (form_floats_failure form _ k msg0 Hin Hk)
      as (n & k' & msg & Hn & Hok & Hk' & Hfs).
    assert (loan_data form = Raise msg) as Hd
      by (rewrite loan_data_floats, Hfs; reflexivity).
    exists n, k', msg. repeat split; try assumption.
    + apply form_float_Raise. exact Hk'.
    + rewrite (predict_loan_serving _ _ _ _ _ Hu Hm).
      rewrite (loan_scoring_Raise _ _ _ _ _ msg)
        by (apply loan_try_data_Raise; exact Hd).
      reflexivity.
    + rewrite (predict_loan_serving _ _ _ _ _ Hu Hm).
      rewrite (loan_scoring_Raise _ _ _ _ _ msg)
        by (apply loan_try_data_Raise; exact Hd).
      reflexivity.
Qed.

(** ** One request, then any number of them *)

Lemma house_scoring_step m user env w form :
  let w' := (house_scoring m user env w form).1 in
  house_model w' = house_model w
  ∧ loan_model w' = loan_model w
  ∧ (Prediction_table w' = Prediction_table w
     ∨ ∃ snapshot text,
         Prediction_table w'
         = Prediction_table w ++ [stored_row env w user "house" snapshot text]).
Proof.
  unfold house_scoring.
  destruct (house_try _ _ _ _ _) as [msg|[table' page]] eqn:Ht; simpl.
  - auto.
  - apply house_try_Return in Ht as (data & p0 & rest & _ & _ & -> & _).
    repeat split. right. eauto.
Qed.

Lemma loan_scoring_step m user env w form :
  let w' := (loan_scoring m user env w form).1 in
  house_model w' = house_model w
  ∧ loan_model w' = loan_model w
  ∧ (Prediction_table w' = Prediction_table w
     ∨ ∃ snapshot text,
         Prediction_table w'
         = Prediction_table w ++ [stored_row env w user "loan" snapshot text]).
Proof.
  unfold loan_scoring.
  destruct (loan_try _ _ _ _ _) as [msg|[table' page]] eqn:Ht; simpl.
  - auto.
  - apply loan_try_Return in Ht as (data & p0 & rest & _ & _ & -> & _).
    repeat split. right. eauto.
Qed.

(** What a request may do to the state: fill a model global that was
    [None], and append one row to the table. *)
Lemma handle_step env w req :
  let w' := (handle env w req).1 in
  (∀ m, house_model w = Some m → house_model w' = Some m)
  ∧ (∀ m, loan_model w = Some m → loan_model w' = Some m)
  ∧ (Prediction_table w' = Prediction_table w
     ∨ ∃ user kind snapshot text,
         Prediction_table w'
         = Prediction_table w ++ [stored_row env w user kind snapshot text]).
Proof.
  destruct req as [form|form| |i]; simpl.
  - unfold predict_house.
    destruct (current_user env) as [user|]; [|simpl; auto].
    destruct (house_model w) as [m|] eqn:Hm.
    + destruct (house_scoring_step m user env w form) as (Hh & Hl & Ht).
      rewrite Hh, Hl, Hm. repeat split; auto.
      destruct Ht as [Ht|(s & t & Ht)]; [auto|right; eauto].
    + destruct (load_model _ _) as [?|[m|]];
        [simpl; repeat split; auto; discriminate| |
         simpl; repeat split; auto; discriminate].
      destruct (house_scoring_step m user env (set_house_model w (Some m)) form)
        as (Hh & Hl & Ht).
      rewrite Hl. simpl in *. repeat split; try discriminate; auto.
      destruct Ht as [Ht|(s & t & Ht)]; [auto|right; eauto].
  - unfold predict_loan.
    destruct (current_user env) as [user|]; [|simpl; auto].
    destruct (loan_model w) as [m|] eqn:Hm.
    + destruct (loan_scoring_step m user env w form) as (Hh & Hl & Ht).
      rewrite Hh, Hl, Hm. repeat split; auto.
      destruct Ht as [Ht|(s & t & Ht)]; [auto|right; eauto].
    + destruct (load_model _ _) as [?|[m|]];
        [simpl; repeat split; auto; discriminate| |
         simpl; repeat split; auto; discriminate].
      destruct (loan_scoring_step m user env (set_loan_model w (Some m)) form)
        as (Hh & Hl & Ht).
      rewrite Hh. simpl in *. repeat split; try discriminate; auto.
      destruct Ht as [Ht|(s & t & Ht)]; [auto|right; eauto].
  - unfold dashboard. destruct (current_user env); simpl; auto.
  - unfold download_report.
    destruct (current_user env); simpl; auto.
    destruct (query_get _ _); simpl; auto.
    case_decide; simpl; auto.
Qed.

Lemma foldr_max_bound (i : Z) (ids : list Z) :
  i ≤ foldr Z.max i ids ∧ ∀ x, x ∈ ids → x ≤ foldr Z.max i ids.
Proof.
  induction ids as [|j ids [IH1 IH2]]; simpl.
  - split; [lia|]. intros x Hx. apply elem_of_nil in Hx. contradiction.
  - split; [lia|]. intros x [->|Hx]%elem_of_cons; [lia|].
    specialize (IH2 x Hx). lia.
Qed.

(** The key of a new row is above every key in use. *)
Lemma next_id_above (table : list Prediction) (p : Prediction) :
  p ∈ table → pred_id p < next_id table.
Proof.
  intros Hp. unfold next_id.
  assert (pred_id p ∈ pred_id <$> table) as Hin
    by (apply list_elem_of_fmap; eauto).
  destruct (pred_id <$> table) as [|i ids].
  - apply elem_of_nil in Hin. contradiction.
  - destruct (foldr_max_bound i ids) as [H1 H2].
    apply elem_of_cons in Hin as [->|Hin]; [lia|].
    specialize (H2 _ Hin). lia.
Qed.

Lemma NoDup_add_row env w user kind snapshot text :
  NoDup (pred_id <$> Prediction_table w) →
  NoDup (pred_id <$> Prediction_table w
                     ++ [stored_row env w user kind snapshot text]).
Proof.
  intros Hnd. rewrite fmap_app. apply NoDup_app. split; [exact Hnd|].
  split; [|apply NoDup_singleton].
  intros x (p & -> & Hp)%list_elem_of_fmap [Heq|Hnil]%elem_of_cons.
  - simpl in Heq. apply next_id_above in Hp. lia.
  - apply elem_of_nil in Hnil. contradiction.
Qed.

(** Along any sequence of requests the model globals, once set, stay set,
    and the table only grows at its end, by rows with fresh keys and the
    default confidence. *)
Lemma run_extends (trace : list (Env * request)) (w : World) :
  (∀ m, house_model w = Some m → house_model (run w trace) = Some m)
  ∧ (∀ m, loan_model w = Some m → loan_model (run w trace) = Some m)
  ∧ (∃ new,
       Prediction_table (run w trace) = Prediction_table w ++ new
       ∧ Forall (λ row, confidence row = float_literal 94.2%Q) new)
  ∧ (NoDup (pred_id <$> Prediction_table w) →
     NoDup (pred_id <$> Prediction_table (run w trace))).
Proof.
  revert w. induction trace as [|[env req] rest IH]; intros w; simpl.
  - repeat split; auto. exists []. rewrite app_nil_r. auto.
  - destruct (handle_step env w req) as (Hh & Hl & Ht).
    destruct (IH (handle env w req).1) as (IHh & IHl & (new & IHt & IHc) & IHn).
    repeat split; auto.
    + destruct Ht as [Ht|(u & kd & s & t & Ht)]; rewrite IHt, Ht.
      * eauto.
      * eexists. rewrite <- app_assoc. split; [reflexivity|].
        constructor; [reflexivity | exact IHc].
    + intros Hnd. apply IHn.
      destruct Ht as [Ht|(u & kd & s & t & Ht)]; rewrite Ht; [exact Hnd|].
      apply NoDup_add_row. exact Hnd.
Qed.

(** ** The audit trail *)

(** C10. Every row created along any sequence of requests, by either
    scoring route, carries the column default 94.2 as its confidence:
    neither route passes a confidence to the [Prediction] constructor. *)
Theorem created_confidence_is_default (w : World) (trace : list (Env * request)) :
  ∃ new,
    Prediction_table (run w trace) = Prediction_table w ++ new
    ∧ ∀ row, row ∈ new → confidence row = float_literal 94.2%Q.
Proof.
  destruct (run_extends trace w) as (_ & _ & (new & Ht & Hc) & _).
  exists new. split; [exact Ht|]. apply Forall_forall. exact Hc.
Qed.

Lemma query_get_Some (table : list Prediction) (i : Z) (r : Prediction) :
  query_get table i = Some r → r ∈ table ∧ pred_id r = i.
Proof.
  unfold query_get. intros [Hin Hid]%find_some.
  split; [apply list_elem_of_In; exact Hin|].
  apply bool_decide_eq_true in Hid. exact Hid.
Qed.

Lemma query_get_None (table : list Prediction) (i : Z) :
  query_get table i = None ↔ ∀ p, p ∈ table → pred_id p ≠ i.
Proof.
  unfold query_get. split.
  - intros Hnone p Hp%list_elem_of_In.
    apply (find_none _ _ Hnone) in Hp. apply bool_decide_eq_false in Hp.
    exact Hp.
  - intros Hall. destruct (find _ table) as [r|] eqn:Hf; [|reflexivity].
    apply find_some in Hf as [Hin%list_elem_of_In Hid%bool_decide_eq_true].
    destruct (Hall r Hin Hid).
Qed.

Lemma query_get_app (table new : list Prediction) (i : Z) (r : Prediction) :
  query_get table i = Some r → query_get (table ++ new) i = Some r.
Proof.
  unfold query_get. induction table as [|p table IH]; simpl; [discriminate|].
  destruct (bool_decide (pred_id p = i)); auto.
Qed.

Lemma same_key_same_row (table : list Prediction) (r r' : Prediction) :
  NoDup (pred_id <$> table) → r ∈ table → r' ∈ table →
  pred_id r = pred_id r' → r = r'.
Proof.
  induction table as [|p table IH]; simpl; intros Hnd Hr Hr' Hid.
  - apply elem_of_nil in Hr. contradiction.
  - apply NoDup_cons in Hnd as [Hp Hnd].
    apply elem_of_cons in Hr as [->|Hr]; apply elem_of_cons in Hr' as [->|Hr'].
    + reflexivity.
    + destruct Hp. rewrite Hid. apply list_elem_of_fmap. eauto.
    + destruct Hp. rewrite <- Hid. apply list_elem_of_fmap. eauto.
    + auto.
Qed.

Lemma history_query_elem (table : list Prediction) (u : Z) (r : Prediction) :
  r ∈ history_query table u → r ∈ table ∧ user_id r = u.
Proof.
  unfold history_query. intros (j & Hj & _)%elem_of_take.
  apply list_elem_of_lookup_2 in Hj.
  rewrite merge_sort_Permutation in Hj.
  apply list_elem_of_filter in Hj as [Hu Hr]. auto.
Qed.

(** C4. A stored row is never changed or removed: after any sequence of
    requests, reading it by its id returns the row as it was created, field
    for field, and any row with that id shown in a history is that row. *)
Theorem records_are_write_once (w : World) (trace : list (Env * request))
    (i : Z) (r : Prediction) :
  NoDup (pred_id <$> Prediction_table w) →
  query_get (Prediction_table w) i = Some r →
  query_get (Prediction_table (run w trace)) i = Some r
  ∧ ∀ u r', r' ∈ history_query (Prediction_table (run w trace)) u →
            pred_id r' = i → r' = r.
Proof.
  intros Hnd Hget.
  destruct (run_extends trace w) as (_ & _ & (new & Ht & _) & Hnd').
  specialize (Hnd' Hnd). split.
  - rewrite Ht. apply query_get_app. exact Hget.
  - intros u r' [Hr' _]%history_query_elem Hid.
    apply query_get_Some in Hget as [Hr <-].
    apply (same_key_same_row _ _ _ Hnd'); [exact Hr'| |exact Hid].
    rewrite Ht. apply elem_of_app. left. exact Hr.
Qed.

(** ** Reports *)

(** C5. A report request for an id that no row has ends in [NotFound];
    for a row owned by another identity it ends in [Forbidden], without a
    document; the byte stream is sent exactly when the row exists and its
    owner is the requesting identity. *)
Theorem report_access (env : Env) (w : World) (i : Z) (user : User) :
  current_user env = Some user →
  ((∀ p, p ∈ Prediction_table w → pred_id p ≠ i) →
   download_report env w i = (w, NotFound404))
  ∧ (∀ pred, query_get (Prediction_table w) i = Some pred →
       user_id pred ≠ User_id user →
       download_report env w i = (w, Unauthorized403))
  ∧ (∀ pred, query_get (Prediction_table w) i = Some pred →
       user_id pred = User_id user →
       ∃ body name, download_report env w i
                    = (w, SendFile body name "application/pdf"))
  ∧ (∀ body name mime,
       (download_report env w i).2 = SendFile body name mime →
       ∃ pred, pred ∈ Prediction_table w ∧ pred_id pred = i
               ∧ user_id pred = User_id user).
Proof.
  intros Hu. unfold download_report. rewrite Hu.
  split; [|split; [|split]].
  - intros Hnone%query_get_None. rewrite Hnone. reflexivity.
  - intros pred -> Hne. rewrite decide_True by exact Hne. reflexivity.
  - intros pred -> Heq. rewrite decide_False by (intros Hne; exact (Hne Heq)).
    eauto.
  - intros body name mime.
    destruct (query_get _ _) as [pred|] eqn:Hget; [|discriminate].
    case_decide as Hne; [discriminate|]. intros _.
    apply query_get_Some in Hget as [Hin Hid].
    exists pred. repeat split; try assumption.
Qed.

Lemma report_ops_name (pred : Prediction) (user1 user2 : User) :
  full_name user1 = full_name user2 →
  report_ops pred user1 = report_ops pred user2.
Proof. unfold report_ops. intros ->. reflexivity. Qed.

(** C6 (as the code has it). What the report draws is a function of the
    stored row and of the owner's display name alone: two report requests
    for the same row by identities with the same name hand the same
    sequence of drawing calls to the PDF writer, whatever the clock, the
    disk and the rest of the state are, and the only time stamp drawn is
    the row's own.  The bytes are what the writer makes of these calls at
    the time of the request; requests made at the same clock reading
    receive identical responses. *)
Theorem report_content_is_pure (env1 env2 : Env) (w1 w2 : World) (i : Z)
    (pred : Prediction) (user1 user2 : User) :
  current_user env1 = Some user1 →
  current_user env2 = Some user2 →
  query_get (Prediction_table w1) i = Some pred →
  query_get (Prediction_table w2) i = Some pred →
  user_id pred = User_id user1 →
  user_id pred = User_id user2 →
  full_name user1 = full_name user2 →
  ∃ name,
    (download_report env1 w1 i).2
    = SendFile (canvas_save (utcnow env1) LETTER (report_ops pred user1))
               name "application/pdf"
    ∧ (download_report env2 w2 i).2
      = SendFile (canvas_save (utcnow env2) LETTER (report_ops pred user1))
                 name "application/pdf"
    ∧ (utcnow env1 = utcnow env2 →
       (download_report env1 w1 i).2 = (download_report env2 w2 i).2).
Proof.
  intros Hu1 Hu2 Hg1 Hg2 Ho1 Ho2 Hname.
  unfold download_report. rewrite Hu1, Hu2, Hg1, Hg2.
  rewrite !decide_False by (intros Hne; apply Hne; assumption).
  rewrite <- (report_ops_name pred user1 user2 Hname). simpl.
  eexists. split; [reflexivity|]. split; [reflexivity|].
  intros ->. reflexivity.
Qed.

(** ** The model globals *)

(** C8 (as the code has it). A model global that holds a model keeps it
    for the rest of the run, and requests of that kind no longer look at
    the disk.  A failed load is not remembered: the global stays [None],
    the state is as before, and the next request of that kind looks at the
    disk again, so that it is served as soon as the artifact is there. *)
Theorem model_cache_behaviour (env : Env) (w : World)
    (form : gmap string string) :
  (∀ m trace, house_model w = Some m → house_model (run w trace) = Some m)
  ∧ (∀ m trace, loan_model w = Some m → loan_model (run w trace) = Some m)
  ∧ (∀ m d, house_model w = Some m →
       predict_house (set_disk env d) w form = predict_house env w form)
  ∧ (∀ m d, loan_model w = Some m →
       predict_loan (set_disk env d) w form = predict_loan env w form)
  ∧ (house_model w = None → disk env HOUSE_MODEL_PATH = Absent →
     (predict_house env w form).1 = w)
  ∧ (loan_model w = None → disk env LOAN_MODEL_PATH = Absent →
     (predict_loan env w form).1 = w)
  ∧ (∀ user m, current_user env = Some user → house_model w = None →
       disk env HOUSE_MODEL_PATH = Pickle m →
       house_model (predict_house env w form).1 = Some m)
  ∧ (∀ user m, current_user env = Some user → loan_model w = None →
       disk env LOAN_MODEL_PATH = Pickle m →
       loan_model (predict_loan env w form).1 = Some m).
Proof.
  split; [|split; [|split; [|split; [|split; [|split; [|split]]]]]].
  - intros m trace. apply run_extends.
  - intros m trace. apply run_extends.
  - intros m d Hm. unfold predict_house. simpl. rewrite Hm. reflexivity.
  - intros m d Hm. unfold predict_loan. simpl. rewrite Hm. reflexivity.
  - intros Hm Hd. unfold predict_house, load_model. rewrite Hm, Hd.
    destruct (current_user env); reflexivity.
  - intros Hm Hd. unfold predict_loan, load_model. rewrite Hm, Hd.
    destruct (current_user env); reflexivity.
  - intros user m Hu Hm Hd.
    rewrite (predict_house_serving env w form user m Hu)
      by (right; split; assumption).
    destruct (house_scoring_step m user env (set_house_model w (Some m)) form)
      as (-> & _). reflexivity.
  - intros user m Hu Hm Hd.
    rewrite (predict_loan_serving env w form user m Hu)
      by (right; split; assumption).
    destruct (loan_scoring_step m user env (set_loan_model w (Some m)) form)
      as (_ & -> & _). reflexivity.
Qed.

End Properties.

(** * Further properties of the routes *)

Section Routes.
Context `{Platform}.

(** ** Who may do what *)

(** X1. Under [login_required], a request without an authenticated user
    is redirected to the login page by every one of the four routes, and
    nothing happens: no artifact is loaded, no row is stored. *)
Theorem anonymous_request_is_redirected (env : Env) (w : World)
    (req : request) :
  current_user env = None → handle env w req = (w, Redirect "login").
Proof.
  intros Hu. destruct req; simpl;
    unfold predict_house, predict_loan, dashboard, download_report;
    rewrite Hu; reflexivity.
Qed.

(** X2. A scoring route touches only the model global of its own kind,
    and the dashboard and the report route change nothing at all,
    whatever they answer. *)
Theorem routes_keep_to_their_state (env : Env) (w : World)
    (form : gmap string string) (i : Z) :
  loan_model (predict_house env w form).1 = loan_model w
  ∧ house_model (predict_loan env w form).1 = house_model w
  ∧ (dashboard env w).1 = w
  ∧ (download_report env w i).1 = w.
Proof.
  split; [|split; [|split]].
  - unfold predict_house. destruct (current_user env) as [user|]; [|reflexivity].
    destruct (house_model w) as [m|].
    + apply house_scoring_step.
    + destruct (load_model _ _) as [?|[m|]]; try reflexivity.
      destruct (house_scoring_step m user env (set_house_model w (Some m)) form)
        as (_ & -> & _). reflexivity.
  - unfold predict_loan. destruct (current_user env) as [user|]; [|reflexivity].
    destruct (loan_model w) as [m|].
    + apply loan_scoring_step.
    + destruct (load_model _ _) as [?|[m|]]; try reflexivity.
      destruct (loan_scoring_step m user env (set_loan_model w (Some m)) form)
        as (-> & _). reflexivity.
  - unfold dashboard. destruct (current_user env); reflexivity.
  - unfold download_report. destruct (current_user env); [|reflexivity].
    destruct (query_get _ _); [|reflexivity]. case_decide; reflexivity.
Qed.

Lemma scoring_is_no_server_error m user env w form :
  (house_scoring m user env w form).2 ≠ InternalServerError
  ∧ (loan_scoring m user env w form).2 ≠ InternalServerError.
Proof.
  unfold house_scoring, loan_scoring. split.
  - destruct (house_try _ _ _ _ _) as [msg|[table' page]] eqn:Ht;
      [discriminate|].
    apply house_try_Return in Ht as (? & ? & ? & _ & _ & _ & ->).
    discriminate.
  - destruct (loan_try _ _ _ _ _) as [msg|[table' page]] eqn:Ht;
      [discriminate|].
    apply loan_try_Return in Ht as (? & ? & ? & _ & _ & _ & ->).
    discriminate.
Qed.

(** X3. An artifact file that [joblib.load] cannot read is not reported as
    the offline page: [load_model] is called outside the [try] block, so the
    exception ends the request with a server error, the state unchanged and
    the global still [None].  This is the only way a scoring request of an
    authenticated user ends in a server error: every exception raised later
    is caught. *)
Theorem unreadable_artifact_is_a_server_error (env : Env) (w : World)
    (form : gmap string string) (user : User) :
  current_user env = Some user →
  ((predict_house env w form).2 = InternalServerError ↔
   house_model w = None ∧ ∃ msg, disk env HOUSE_MODEL_PATH = Unreadable msg)
  ∧ ((predict_loan env w form).2 = InternalServerError ↔
     loan_model w = None ∧ ∃ msg, disk env LOAN_MODEL_PATH = Unreadable msg)
  ∧ ((predict_house env w form).2 = InternalServerError →
     (predict_house env w form).1 = w)
  ∧ ((predict_loan env w form).2 = InternalServerError →
     (predict_loan env w form).1 = w).
Proof.
  intros Hu. unfold predict_house, predict_loan, load_model. rewrite Hu.
  split; [|split; [|split]].
  - destruct (house_model w) as [m|].
    + split; [|intros [Hm _]; discriminate].
      intros Hs. destruct (proj1 (scoring_is_no_server_error m user env w form) Hs).
    + destruct (disk env HOUSE_MODEL_PATH) as [|msg|m]; simpl.
      * split; [discriminate|]. intros [_ [msg Hmsg]]. discriminate.
      * split; eauto.
      * split; [|intros [_ [msg Hmsg]]; discriminate].
        intros Hs.
        destruct (proj1 (scoring_is_no_server_error m user env _ form) Hs).
  - destruct (loan_model w) as [m|].
    + split; [|intros [Hm _]; discriminate].
      intros Hs. destruct (proj2 (scoring_is_no_server_error m user env w form) Hs).
    + destruct (disk env LOAN_MODEL_PATH) as [|msg|m]; simpl.
      * split; [discriminate|]. intros [_ [msg Hmsg]]. discriminate.
      * split; eauto.
      * split; [|intros [_ [msg Hmsg]]; discriminate].
        intros Hs.
        destruct (proj2 (scoring_is_no_server_error m user env _ form) Hs).
  - destruct (house_model w) as [m|].
    + intros Hs. destruct (proj1 (scoring_is_no_server_error m user env w form) Hs).
    + destruct (disk env HOUSE_MODEL_PATH) as [|msg|m]; simpl;
        try reflexivity.
      intros Hs.
      destruct (proj1 (scoring_is_no_server_error m user env _ form) Hs).
  - destruct (loan_model w) as [m|].
    + intros Hs. destruct (proj2 (scoring_is_no_server_error m user env w form) Hs).
    + destruct (disk env LOAN_MODEL_PATH) as [|msg|m]; simpl;
        try reflexivity.
      intros Hs.
      destruct (proj2 (scoring_is_no_server_error m user env _ form) Hs).
Qed.

(** ** When scoring succeeds, and what it is given *)

Lemma house_scoring_Return m user env w form data p0 rest :
  house_data form = Return data →
  predict m (house_features data) = Return (p0 :: rest) →
  let text := "$" +:+ format_comma_2f (scalar_float p0) in
  house_scoring m user env w form
  = (set_table w (Prediction_table w
                  ++ [stored_row env w user "house" (house_json data) text]),
     ResultPage text "Real Estate Appraisal" "house" house_explain
                (next_id (Prediction_table w))).
Proof.
  intros Hd Hp. unfold house_scoring, house_try. rewrite Hd. simpl.
  rewrite Hp. reflexivity.
Qed.

Lemma loan_scoring_Return m user env w form data p0 rest :
  loan_data form = Return data →
  predict m (loan_features data) = Return (p0 :: rest) →
  let text := if scalar_eq_int p0 1 then APPROVED else FLAGGED in
  loan_scoring m user env w form
  = (set_table w (Prediction_table w
                  ++ [stored_row env w user "loan" (loan_json data) text]),
     ResultPage text "Loan Eligibility Analysis" "loan" loan_explain
                (next_id (Prediction_table w))).
Proof.
  intros Hd Hp. unfold loan_scoring, loan_try. rewrite Hd. simpl.
  rewrite Hp. reflexivity.
Qed.

(** X4. A scoring request ends in the result page exactly when the user
    is authenticated, a model is cached or can be unpickled, every field
    of the form parses, and the model answers with a non-empty array. *)
Theorem scoring_succeeds_iff (env : Env) (w : World)
    (form : gmap string string) :
  ((∃ w' text ttl ty ex i,
      predict_house env w form = (w', ResultPage text ttl ty ex i))
   ↔ ∃ user m data p0 rest,
       current_user env = Some user
       ∧ serving (house_model w) env HOUSE_MODEL_PATH m
       ∧ house_data form = Return data
       ∧ predict m (house_features data) = Return (p0 :: rest))
  ∧ ((∃ w' text ttl ty ex i,
        predict_loan env w form = (w', ResultPage text ttl ty ex i))
     ↔ ∃ user m data p0 rest,
         current_user env = Some user
         ∧ serving (loan_model w) env LOAN_MODEL_PATH m
         ∧ loan_data form = Return data
         ∧ predict m (loan_features data) = Return (p0 :: rest)).
Proof.
  split; split.
  - intros (w' & text & ttl & ty & ex & i & Hp).
    apply predict_house_ResultPage in Hp
      as (user & m & data & p0 & rest & Hu & Hm & Hd & Hpr & _).
    exists user, m, data, p0, rest. auto.
  - intros (user & m & data & p0 & rest & Hu & Hm & Hd & Hpr).
    rewrite (predict_house_serving _ _ _ _ _ Hu Hm).
    rewrite (house_scoring_Return _ _ _ _ _ _ _ _ Hd Hpr). eauto 8.
  - intros (w' & text & ttl & ty & ex & i & Hp).
    apply predict_loan_ResultPage in Hp
      as (user & m & data & p0 & rest & Hu & Hm & Hd & Hpr & _).
    exists user, m, data, p0, rest. auto.
  - intros (user & m & data & p0 & rest & Hu & Hm & Hd & Hpr).
    rewrite (predict_loan_serving _ _ _ _ _ Hu Hm).
    rewrite (loan_scoring_Return _ _ _ _ _ _ _ _ Hd Hpr). eauto 8.
Qed.



(** X6. A fault of the model inside the [try] block is answered with the
    same error page as an unparseable field: the route's prefix followed by
    the text of the exception, which for an empty answer is the index
    error of [prediction[0]].  No row is stored; a model unpickled by this
    request stays cached. *)
Theorem model_fault_is_an_error_page (env : Env) (w : World)
    (form : gmap string string) (user : User) (m : Model) :
  current_user env = Some user →
  (∀ data msg,
     serving (house_model w) env HOUSE_MODEL_PATH m →
     house_data form = Return data →
     predict m (house_features data) = Raise msg
     ∨ (predict m (house_features data) = Return []
        ∧ msg = "index 0 is out of bounds for axis 0 with size 0") →
     predict_house env w form
     = (set_house_model w (Some m),
        ResultError ("Data processing error: " +:+ msg)))
  ∧ (∀ data msg,
       serving (loan_model w) env LOAN_MODEL_PATH m →
       loan_data form = Return data →
       predict m (loan_features data) = Raise msg
       ∨ (predict m (loan_features data) = Return []
          ∧ msg = "index 0 is out of bounds for axis 0 with size 0") →
       predict_loan env w form
       = (set_loan_model w (Some m),
          ResultError ("Analysis engine error: " +:+ msg))).
Proof.
  intros Hu. split; intros data msg Hm Hd Hp.
  - rewrite (predict_house_serving _ _ _ _ _ Hu Hm).
    apply house_scoring_Raise. unfold house_try. rewrite Hd. simpl.
    destruct Hp as [->|[-> ->]]; reflexivity.
  - rewrite (predict_loan_serving _ _ _ _ _ Hu Hm).
    apply loan_scoring_Raise. unfold loan_try. rewrite Hd. simpl.
    destruct Hp as [->|[-> ->]]; reflexivity.
Qed.

(** ** The rows of the audit trail *)

Lemma query_get_fresh (table : list Prediction) (row : Prediction) (i : Z) :
  (∀ p, p ∈ table → pred_id p ≠ i) → pred_id row = i →
  query_get (table ++ [row]) i = Some row.
Proof.
  intros Hfresh Hid. unfold query_get.
  induction table as [|p table' IH]; simpl.
  - rewrite bool_decide_eq_true_2 by exact Hid. reflexivity.
  - rewrite bool_decide_eq_false_2 by (apply Hfresh; constructor).
    apply IH. intros q Hq. apply Hfresh. constructor. exact Hq.
Qed.

Lemma query_get_new (table : list Prediction) (row : Prediction) :
  pred_id row = next_id table →
  query_get (table ++ [row]) (next_id table) = Some row.
Proof.
  intros Hid. apply query_get_fresh; [|exact Hid].
  intros p Hp%next_id_above. lia.
Qed.

(** What a request that ends in the result page was and did. *)
Lemma handle_ResultPage env w req w' text ttl ty ex i :
  handle env w req = (w', ResultPage text ttl ty ex i) →
  ∃ user snapshot,
    current_user env = Some user
    ∧ i = next_id (Prediction_table w)
    ∧ Prediction_table w'
      = Prediction_table w ++ [stored_row env w user ty snapshot text]
    ∧ route_row (stored_row env w user ty snapshot text).
Proof.
  destruct req as [form|form| |j]; simpl; intros Hp.
  - pose proof Hp as Hp'. apply predict_house_ResultPage in Hp
      as (user & m & data & p0 & rest & Hu & Hm & Hd & Hpr & -> & -> & ->).
    rewrite (predict_house_serving _ _ _ _ _ Hu Hm) in Hp'.
    rewrite (house_scoring_Return _ _ _ _ _ _ _ _ Hd Hpr) in Hp'.
    injection Hp' as <- <- <-.
    exists user, (house_json data). repeat split; try assumption.
    left. simpl. repeat split. eauto.
  - pose proof Hp as Hp'. apply predict_loan_ResultPage in Hp
      as (user & m & data & p0 & rest & Hu & Hm & Hd & Hpr & -> & -> & ->).
    rewrite (predict_loan_serving _ _ _ _ _ Hu Hm) in Hp'.
    rewrite (loan_scoring_Return _ _ _ _ _ _ _ _ Hd Hpr) in Hp'.
    injection Hp' as <- <- <-.
    exists user, (loan_json data). repeat split; try assumption.
    right. simpl. repeat split. destruct (scalar_eq_int p0 1); auto.
  - unfold dashboard in Hp. destruct (current_user env); discriminate.
  - unfold download_report in Hp.
    destruct (current_user env); [|discriminate].
    destruct (query_get _ _); [|discriminate].
    case_decide; discriminate.
Qed.

(** X7. What the result page shows is what the audit trail holds: a
    request that ends in the result page has appended exactly one row,
    whose id, kind and result text are those of the page, whose owner is
    the requesting user and whose time stamp is the clock of the request;
    reading that id back returns this row. *)
Theorem result_page_matches_stored_row (env : Env) (w w' : World)
    (req : request) (text ttl ty : string) (ex : list factor) (i : Z) :
  handle env w req = (w', ResultPage text ttl ty ex i) →
  ∃ user row,
    current_user env = Some user
    ∧ Prediction_table w' = Prediction_table w ++ [row]
    ∧ pred_id row = i ∧ type row = ty ∧ result_text row = text
    ∧ user_id row = User_id user ∧ timestamp row = utcnow env
    ∧ query_get (Prediction_table w') i = Some row.
Proof.
  intros (user & snapshot & Hu & -> & Ht & _)%handle_ResultPage.
  exists user, (stored_row env w user ty snapshot text).
  repeat split; try assumption. rewrite Ht. apply query_get_new. reflexivity.
Qed.

Lemma handle_appends env w req :
  Prediction_table (handle env w req).1 = Prediction_table w
  ∨ ∃ row,
      Prediction_table (handle env w req).1 = Prediction_table w ++ [row]
      ∧ pred_id row = next_id (Prediction_table w)
      ∧ route_row row.
Proof.
  destruct (handle_page_or_same env w req)
    as [(text & ttl & ty & ex & i & Hp)|Hsame]; [|left; exact Hsame].
  destruct (handle env w req) as [w' resp] eqn:Hh. simpl in *. subst resp.
  apply handle_ResultPage in Hh as (user & snapshot & _ & _ & Ht & Hrow).
  right. eauto.
Qed.

(** X8. Ids are assigned in increasing order: along any sequence of
    requests the rows created have strictly increasing ids, each above
    every id that was in the table before. *)
Theorem new_ids_increase (w : World) (trace : list (Env * request)) :
  ∃ new,
    Prediction_table (run w trace) = Prediction_table w ++ new
    ∧ (∀ old n, old ∈ Prediction_table w → n ∈ new → pred_id old < pred_id n)
    ∧ StronglySorted Z.lt (pred_id <$> new).
Proof.
  revert w. induction trace as [|[env req] rest IH]; intros w; simpl.
  - exists []. rewrite app_nil_r. repeat split; [|constructor].
    intros old n _ Hn. apply elem_of_nil in Hn. contradiction.
  - destruct (IH (handle env w req).1) as (new & Ht & Habove & Hsorted).
    destruct (handle_appends env w req) as [Hsame|(row & Happ & Hid & _)].
    + exists new. rewrite Ht, Hsame. rewrite Hsame in Habove. auto.
    + exists (row :: new). rewrite Ht, Happ, <- app_assoc.
      rewrite Happ in Habove. split; [reflexivity|]. split.
      * intros old n Hold [->|Hn]%elem_of_cons.
        -- rewrite Hid. apply next_id_above. exact Hold.
        -- apply (Habove old n); [|exact Hn].
           apply elem_of_app. left. exact Hold.
      * simpl. constructor; [exact Hsorted|].
        apply Forall_forall. intros x (n & -> & Hn)%list_elem_of_fmap.
        apply (Habove row n); [|exact Hn].
        apply elem_of_app. right. constructor.
Qed.

Lemma foldr_max_elem (i : Z) (ids : list Z) : foldr Z.max i ids ∈ i :: ids.
Proof.
  induction ids as [|j ids IH]; simpl; [constructor|].
  destruct (Z.max_spec j (foldr Z.max i ids)) as [[_ ->]|[_ ->]].
  - apply elem_of_cons in IH as [->|IH]; [constructor|].
    do 2 constructor. exact IH.
  - constructor. constructor.
Qed.

Lemma next_id_consecutive (table : list Prediction) :
  pred_id <$> table = seqZ 1 (Z.of_nat (length table)) →
  next_id table = 1 + Z.of_nat (length table).
Proof.
  intros Hids. unfold next_id. rewrite Hids.
  destruct (seqZ 1 (Z.of_nat (length table))) as [|i ids] eqn:Hs.
  - apply (f_equal length) in Hs. rewrite length_seqZ in Hs. simpl in Hs. lia.
  - pose proof (foldr_max_elem i ids) as Hin.
    destruct (foldr_max_bound i ids) as [Hi Hall].
    assert (length table ≠ 0%nat) as Hne
      by (intros Hz; rewrite Hz in Hs; discriminate Hs).
    rewrite <- Hs in Hin. apply elem_of_seqZ in Hin.
    assert (Z.of_nat (length table) ∈ i :: ids) as Hlast
      by (rewrite <- Hs; apply elem_of_seqZ; lia).
    apply elem_of_cons in Hlast as [Hlast|Hlast].
    + lia.
    + specialize (Hall _ Hlast). lia.
Qed.

Lemma run_keeps_numbering (trace : list (Env * request)) (w : World) :
  pred_id <$> Prediction_table w
  = seqZ 1 (Z.of_nat (length (Prediction_table w))) →
  pred_id <$> Prediction_table (run w trace)
  = seqZ 1 (Z.of_nat (length (Prediction_table (run w trace)))).
Proof.
  revert w. induction trace as [|[env req] rest IH]; intros w Hw; simpl.
  - exact Hw.
  - apply IH.
    destruct (handle_appends env w req) as [->|(row & -> & Hid & _)];
      [exact Hw|].
    rewrite fmap_app, length_app, Hw. simpl.
    rewrite Hid, (next_id_consecutive _ Hw).
    rewrite Nat2Z.inj_add. rewrite seqZ_app by lia. simpl.
    reflexivity.
Qed.

(** X9. Starting from an empty table, the rows are numbered 1, 2, 3, ...
    in the order of their creation. *)
Theorem ids_count_from_one (trace : list (Env * request)) :
  pred_id <$> Prediction_table (run (boot []) trace)
  = seqZ 1 (Z.of_nat (length (Prediction_table (run (boot []) trace)))).
Proof. apply run_keeps_numbering. reflexivity. Qed.

(** X10. A report can be fetched for every result shown: once a request
    has ended in the result page with id [i], then after any further
    requests a report request for [i] by a user with the same id is
    answered with the file [TrustBridge_Report_<i>.pdf], and by a user with
    another id with 403. *)
Theorem report_follows_prediction (env env' : Env) (w w' : World)
    (req : request) (text ttl ty : string) (ex : list factor) (i : Z)
    (trace : list (Env * request)) (user user' : User) :
  handle env w req = (w', ResultPage text ttl ty ex i) →
  current_user env = Some user →
  current_user env' = Some user' →
  (User_id user' = User_id user →
   ∃ body,
     (download_report env' (run w' trace) i).2
     = SendFile body ("TrustBridge_Report_" +:+ pretty i +:+ ".pdf")
                "application/pdf")
  ∧ (User_id user' ≠ User_id user →
     (download_report env' (run w' trace) i).2 = Unauthorized403).
Proof.
  intros (user0 & snapshot & Hu0 & -> & Ht & _)%handle_ResultPage Hu Hu'.
  rewrite Hu in Hu0. injection Hu0 as <-.
  destruct (run_extends trace w') as (_ & _ & (new & Hrun & _) & _).
  assert (query_get (Prediction_table (run w' trace))
                    (next_id (Prediction_table w))
          = Some (stored_row env w user ty snapshot text)) as Hget.
  { rewrite Hrun. apply query_get_app. rewrite Ht.
    apply query_get_new. reflexivity. }
  unfold download_report. rewrite Hu', Hget. simpl. split; intros Hid.
  - rewrite decide_False by (intros Hne; apply Hne; symmetry; exact Hid).
    eauto.
  - rewrite decide_True by (intros Heq; apply Hid; symmetry; exact Heq).
    reflexivity.
Qed.

(** X11. Every row created along any sequence of requests is of kind
    "house" or "loan"; a house row has the seven house fields as the keys
    of its snapshot and a result text that starts with the currency sign;
    a loan row has the eight loan fields as keys and one of the two fixed
    labels as its result text. *)
Theorem created_rows_have_route_shape (w : World)
    (trace : list (Env * request)) :
  ∃ new,
    Prediction_table (run w trace) = Prediction_table w ++ new
    ∧ Forall route_row new.
Proof.
  revert w. induction trace as [|[env req] rest IH]; intros w; simpl.
  - exists []. rewrite app_nil_r. split; [reflexivity|constructor].
  - destruct (IH (handle env w req).1) as (new & Ht & Hnew).
    destruct (handle_appends env w req) as [Hsame|(row & Happ & _ & Hrow)].
    + exists new. rewrite Ht, Hsame. auto.
    + exists (row :: new). rewrite Ht, Happ, <- app_assoc.
      split; [reflexivity|]. constructor; assumption.
Qed.

(** ** The dashboard history *)

#[local] Existing Instance newer_or_same_dec.

#[local] Instance newer_or_same_total : Total newer_or_same.
Proof. intros a b. unfold newer_or_same. lia. Qed.

#[local] Instance newer_or_same_trans : Transitive newer_or_same.
Proof. intros a b c. unfold newer_or_same. lia. Qed.

Lemma StronglySorted_split {A : Type} (R : relation A) (l : list A) (n : nat) :
  StronglySorted R l →
  StronglySorted R (take n l)
  ∧ ∀ x y, x ∈ take n l → y ∈ drop n l → R x y.
Proof.
  intros Hs. rewrite <- (take_drop n l) in Hs.
  apply StronglySorted_app in Hs as (Hcross & Htake & _). auto.
Qed.

(** X12. The history of a user holds only rows of the table that this
    user owns, at most five of them and all of them when the user has
    five or fewer, newest first; a row of the user that is left out is not
    newer than any row shown. *)
Theorem history_is_the_newest_five (table : list Prediction) (u : Z) :
  let own := filter (λ p, user_id p = u) table in
  let history := history_query table u in
  (∀ r, r ∈ history → r ∈ table ∧ user_id r = u)
  ∧ length history = (length own `min` 5)%nat
  ∧ StronglySorted newer_or_same history
  ∧ (∀ r h, r ∈ own → r ∉ history → h ∈ history →
       timestamp r ≤ timestamp h).
Proof.
  intros own history. subst history. unfold history_query. fold own.
  pose proof (StronglySorted_merge_sort newer_or_same own) as Hsorted.
  pose proof (merge_sort_Permutation newer_or_same own) as Hperm.
  destruct (StronglySorted_split _ _ 5 Hsorted) as [Htake Hcross].
  split; [|split; [|split]].
  - intros r Hr. apply history_query_elem. exact Hr.
  - rewrite length_take, Hperm. lia.
  - exact Htake.
  - intros r h Hr Hout Hh. apply (Hcross h r Hh).
    rewrite <- Hperm, <- (take_drop 5 (merge_sort newer_or_same own)) in Hr.
    apply elem_of_app in Hr as [Hr|Hr]; [contradiction|exact Hr].
Qed.

(** X13. A result is on top of the dashboard: when a request ends in the
    result page at a clock reading later than the time stamps of all
    earlier rows of the user, the history the user sees next starts with
    the new row. *)
Theorem newest_prediction_heads_history (env : Env) (w w' : World)
    (req : request) (text ttl ty : string) (ex : list factor) (i : Z)
    (user : User) :
  handle env w req = (w', ResultPage text ttl ty ex i) →
  current_user env = Some user →
  (∀ r, r ∈ Prediction_table w → user_id r = User_id user →
        timestamp r < utcnow env) →
  ∃ row,
    head (history_query (Prediction_table w') (User_id user)) = Some row
    ∧ pred_id row = i ∧ result_text row = text.
Proof.
  intros (user0 & snapshot & Hu0 & -> & Ht & _)%handle_ResultPage Hu Hold.
  rewrite Hu in Hu0. injection Hu0 as <-.
  set (row := stored_row env w user ty snapshot text) in *.
  set (own := filter (λ p, user_id p = User_id user) (Prediction_table w')).
  assert (row ∈ own) as Hrow.
  { apply list_elem_of_filter. split; [reflexivity|].
    rewrite Ht. apply elem_of_app. right. constructor. }
  assert (∀ r, r ∈ own → r = row ∨ timestamp r < timestamp row) as Hown.
  { intros r [Hr Hin]%list_elem_of_filter. rewrite Ht in Hin.
    apply elem_of_app in Hin as [Hin|Hin].
    - right. apply Hold; assumption.
    - left. apply elem_of_cons in Hin as [Hin|Hin]; [exact Hin|].
      apply elem_of_nil in Hin. contradiction. }
  pose proof (StronglySorted_merge_sort newer_or_same own) as Hsorted.
  pose proof (merge_sort_Permutation newer_or_same own) as Hperm.
  unfold history_query. fold own.
  destruct (merge_sort newer_or_same own) as [|h rest] eqn:Hm.
  - rewrite <- Hperm in Hrow. apply elem_of_nil in Hrow. contradiction.
  - exists h. simpl. split; [reflexivity|].
    assert (h = row) as ->; [|split; reflexivity].
    destruct (Hown h) as [Hh|Hh]; [rewrite <- Hperm; constructor|exact Hh|].
    rewrite <- Hperm in Hrow. apply elem_of_cons in Hrow as [Hrow|Hrow];
      [symmetry; exact Hrow|].
    apply StronglySorted_inv in Hsorted as [_ Hall].
    rewrite Forall_forall in Hall. specialize (Hall row Hrow).
    unfold newer_or_same in Hall. lia.
Qed.

(** ** The report *)

(** X14. The loop over the snapshot draws one line per entry, in the
    order of the snapshot, each 15 units below the one before, at
    indentation 120, and leaves the cursor 15 units below the last. *)
Theorem input_lines_are_evenly_spaced (y : Z)
    (inputs : list (string * jvalue)) :
  (draw_inputs y inputs).1
  = imap (λ k kv, drawString 120 (y - 15 * Z.of_nat k) (input_line kv)) inputs
  ∧ (draw_inputs y inputs).2 = y - 15 * Z.of_nat (length inputs).
Proof.
  revert y. induction inputs as [|[key val] rest IH]; intros y; simpl.
  - split; [reflexivity|lia].
  - destruct (IH (y - 15)) as [-> ->]. split.
    + f_equal; [f_equal; lia|].
      apply imap_ext. intros k kv _. simpl. f_equal. lia.
    + lia.
Qed.

(** X15. The report of a row stored by the scoring routes fits the
    single page: every text of the body is drawn between heights 405 and
    750, clear of the two footer lines at 50 and 40. *)
Theorem route_report_fits_the_page (pred : Prediction) (user : User) :
  route_row pred → Forall in_footer_or_body (report_ops pred user).
Proof.
  intros Hrow. unfold report_ops.
  destruct (input_lines_are_evenly_spaced 580 (input_json pred)) as [Hl Hy].
  change (600 - 20) with 580. rewrite Hl, Hy. clear Hl Hy.
  destruct Hrow as [(_ & Hkeys & _)|(_ & Hkeys & _)];
    apply (f_equal length) in Hkeys; rewrite length_fmap in Hkeys;
    destruct (input_json pred) as [|e1 [|e2 [|e3 [|e4 [|e5 [|e6 [|e7
      [|e8 [|e9 rest]]]]]]]]]; try discriminate Hkeys;
    simpl; repeat (constructor; [simpl; auto; lia|]); constructor.
Qed.

Lemma length_append (s t : string) :
  String.length (s +:+ t) = (String.length s + String.length t)%nat.
Proof. induction s as [|c s IH]; simpl; [reflexivity|]. rewrite IH. lia. Qed.

Lemma append_inv_tail (s1 s2 t : string) : s1 +:+ t = s2 +:+ t → s1 = s2.
Proof.
  intros Heq.
  assert (String.length s1 = String.length s2) as Hlen.
  { apply (f_equal String.length) in Heq. rewrite !length_append in Heq. lia. }
  revert s2 Heq Hlen. induction s1 as [|c s1 IH]; intros [|d s2]; simpl;
    try discriminate; [reflexivity|].
  intros Heq Hlen. injection Heq as -> Heq. f_equal. apply IH; [exact Heq|].
  lia.
Qed.

Lemma report_name_inj (i j : Z) : report_name i = report_name j → i = j.
Proof.
  unfold report_name. intros Heq.
  apply (inj (String.app _)) in Heq. apply append_inv_tail in Heq.
  apply (inj pretty) in Heq. exact Heq.
Qed.

Lemma download_report_SendFile env w i body name mime :
  (download_report env w i).2 = SendFile body name mime →
  ∃ user pred,
    current_user env = Some user
    ∧ query_get (Prediction_table w) i = Some pred
    ∧ user_id pred = User_id user
    ∧ body = canvas_save (utcnow env) LETTER (report_ops pred user)
    ∧ name = report_name i
    ∧ mime = "application/pdf".
Proof.
  unfold download_report.
  destruct (current_user env) as [user|]; [|discriminate].
  destruct (query_get _ _) as [pred|] eqn:Hget; [|discriminate].
  case_decide as Hown; [discriminate|]. simpl. intros Hsend.
  injection Hsend as <- <- <-.
  apply query_get_Some in Hget as Hid. destruct Hid as [_ Hid].
  exists user, pred. rewrite <- Hid. repeat split; try reflexivity.
  destruct (decide (user_id pred = User_id user)); [assumption|contradiction].
Qed.

(** X16. Reports of distinct ids are sent under distinct file names: two
    report requests that are both answered with a file of the same name
    asked for the same id. *)
Theorem report_names_are_distinct (env1 env2 : Env) (w1 w2 : World)
    (i j : Z) (body1 body2 : list Byte.byte) (name mime1 mime2 : string) :
  (download_report env1 w1 i).2 = SendFile body1 name mime1 →
  (download_report env2 w2 j).2 = SendFile body2 name mime2 →
  i = j.
Proof.
  intros (_ & _ & _ & _ & _ & _ & Hi & _)%download_report_SendFile
         (_ & _ & _ & _ & _ & _ & Hj & _)%download_report_SendFile.
  apply report_name_inj. congruence.
Qed.

Lemma zeros_length (k : nat) : String.length (zeros k) = k.
Proof. induction k as [|k IH]; simpl; [reflexivity|]. rewrite IH. reflexivity. Qed.

Lemma digit_char_nonzero (x : N) : (0 < x)%N → pretty_N_char x ≠ "0"%char.
Proof.
  intros Hx. unfold pretty_N_char.
  repeat case_match; first [discriminate | lia].
Qed.

(** A positive number is written without a leading zero. *)
Lemma pretty_N_go_head (x : N) (s : string) :
  (0 < x)%N → ∃ c t, pretty_N_go x s = String c t ∧ c ≠ "0"%char.
Proof.
  revert s. induction (N.lt_wf_0 x) as [x _ IH]; intros s Hx.
  rewrite pretty_N_go_step by exact Hx.
  destruct (decide (x `div` 10 = 0)%N) as [Hz|Hnz].
  - rewrite Hz, pretty_N_go_0. eexists _, _. split; [reflexivity|].
    assert (x < 10)%N as Hlt.
    { pose proof (N.div_mod x 10 ltac:(lia)) as Hdm.
      pose proof (N.mod_lt x 10 ltac:(lia)) as Hml. lia. }
    rewrite N.mod_small by exact Hlt. apply digit_char_nonzero. exact Hx.
  - apply IH; [apply N.div_lt; lia|].
    apply N.neq_0_lt_0. exact Hnz.
Qed.

Lemma pretty_pos_head (n : Z) :
  0 < n → ∃ c t, pretty n = String c t ∧ c ≠ "0"%char.
Proof.
  destruct n as [|p|p]; try lia. intros _.
  unfold pretty, pretty_Z, pretty, pretty_positive, pretty, pretty_N.
  rewrite decide_False by discriminate.
  apply pretty_N_go_head. lia.
Qed.

Lemma zeros_not_before_nonzero (k m : nat) (c : ascii) (t : string) :
  c ≠ "0"%char → zeros k +:+ String c t ≠ zeros m.
Proof.
  intros Hc. revert m. induction k as [|k IH]; intros [|m]; simpl;
    try discriminate.
  - intros Heq. injection Heq as -> _. contradiction.
  - intros Heq. injection Heq as Heq. exact (IH m Heq).
Qed.

Lemma zeros_prefix_unique (k1 k2 : nat) (c1 c2 : ascii) (t1 t2 : string) :
  c1 ≠ "0"%char → c2 ≠ "0"%char →
  zeros k1 +:+ String c1 t1 = zeros k2 +:+ String c2 t2 →
  String c1 t1 = String c2 t2.
Proof.
  intros H1 H2. revert k2. induction k1 as [|k1 IH]; intros [|k2]; simpl.
  - auto.
  - intros Heq. injection Heq as -> _. contradiction.
  - intros Heq. injection Heq as <- _. contradiction.
  - intros Heq. injection Heq as Heq. exact (IH k2 Heq).
Qed.

Lemma format_04d_nonneg (n : Z) :
  0 ≤ n →
  format_04d n = zeros (4 - String.length (pretty n)) +:+ pretty n.
Proof.
  intros Hn. unfold format_04d.
  rewrite Z.abs_eq by exact Hn.
  destruct (n <? 0) eqn:Hneg; [apply Z.ltb_lt in Hneg; lia|].
  reflexivity.
Qed.

Lemma format_04d_padded_unique (i j : Z) :
  0 ≤ i → 0 ≤ j →
  (4 ≤ String.length (format_04d i))%nat
  ∧ (∃ k, format_04d i = zeros k +:+ pretty i)
  ∧ (format_04d i = format_04d j → i = j).
Proof.
  intros Hi Hj. rewrite !format_04d_nonneg by assumption.
  split; [|split].
  - rewrite length_append, zeros_length. lia.
  - eauto.
  - intros Heq.
    destruct (decide (i = 0)) as [->|Hi0]; destruct (decide (j = 0)) as [->|Hj0].
    + reflexivity.
    + destruct (pretty_pos_head j) as (c & t & Hp & Hc); [lia|].
      rewrite Hp in Heq. symmetry in Heq. simpl in Heq.
      destruct (zeros_not_before_nonzero _ 4 c t Hc Heq).
    + destruct (pretty_pos_head i) as (c & t & Hp & Hc); [lia|].
      rewrite Hp in Heq. simpl in Heq.
      destruct (zeros_not_before_nonzero _ 4 c t Hc Heq).
    + destruct (pretty_pos_head i) as (c1 & t1 & Hp1 & Hc1); [lia|].
      destruct (pretty_pos_head j) as (c2 & t2 & Hp2 & Hc2); [lia|].
      rewrite Hp1, Hp2 in Heq.
      apply zeros_prefix_unique in Heq; [|assumption..].
      rewrite <- Hp1, <- Hp2 in Heq. apply (inj pretty) in Heq. exact Heq.
Qed.

(** X17. The seventh drawing call of a report writes its identifier: the
    prefix [TB-] and the id in decimal, padded with zeros on the left to
    four characters and never cut.  For ids that are not negative,
    reports with the same identifier line are reports of the same id. *)
Theorem report_id_is_padded_and_unique (pred1 pred2 : Prediction)
    (user1 user2 : User) :
  0 ≤ pred_id pred1 → 0 ≤ pred_id pred2 →
  (∃ k,
     report_ops pred1 user1 !! 6%nat
     = Some (drawString 100 700
               ("Report ID: TB-" +:+ zeros k +:+ pretty (pred_id pred1)))
     ∧ (4 ≤ k + String.length (pretty (pred_id pred1)))%nat)
  ∧ (report_ops pred1 user1 !! 6%nat = report_ops pred2 user2 !! 6%nat →
     pred_id pred1 = pred_id pred2).
Proof.
  intros H1 H2.
  destruct (format_04d_padded_unique _ _ H1 H2) as (Hlen & (k & Hk) & Hinj).
  split.
  - exists k. unfold report_ops. simpl. rewrite Hk. split; [reflexivity|].
    rewrite Hk, length_append, zeros_length in Hlen. exact Hlen.
  - unfold report_ops. simpl. intros Heq. injection Heq as Heq.
    apply Hinj. exact Heq.
Qed.

(** ** Training and serving *)

Lemma train_property_area_lookup (s : string) :
  train_property_area !! s = area_map !! s.
Proof. reflexivity. Qed.

(** X18. On every category the training script encodes, the loan route
    encodes as the training script does: if the training dicts of
    [generate_models.py] send the three raw values to [a], [m] and [e],
    the last three features of the request are [a], [m] and [e]. *)
Theorem serving_codes_agree_with_training (data : LoanData) (a m e : Z) :
  train_property_area !! property_area data = Some a →
  train_married !! married data = Some m →
  train_education !! education data = Some e →
  drop 5 (loan_features data) = [SInt a; SInt m; SInt e].
Proof.
  rewrite train_property_area_lookup, area_map_lookup.
  unfold train_married, train_education. simpl.
  rewrite !lookup_insert, !lookup_empty, area_map_lookup.
  repeat case_decide; subst; intros; simplify_eq; try reflexivity;
    congruence.
Qed.

End Routes.


(** * Properties of the account routes *)

Section AccountProperties.
Context `{Platform} `{PasswordHasher}.

Lemma by_username_None (users : list UserRow) (name : string) :
  by_username users name = None ↔ name ∉ (username <$> users).
Proof.
  unfold by_username. split.
  - intros Hnone (u & -> & Hu)%list_elem_of_fmap.
    apply list_elem_of_In in Hu. apply (find_none _ _ Hnone) in Hu.
    apply bool_decide_eq_false in Hu. contradiction.
  - intros Hfresh. destruct (find _ users) as [u|] eqn:Hf; [|reflexivity].
    apply find_some in Hf as [Hin%list_elem_of_In Hname%bool_decide_eq_true].
    destruct Hfresh. apply list_elem_of_fmap. eauto.
Qed.

Lemma by_username_Some (users : list UserRow) (name : string) (u : UserRow) :
  by_username users name = Some u → u ∈ users ∧ username u = name.
Proof.
  unfold by_username. intros [Hin Hname]%find_some.
  split; [apply list_elem_of_In; exact Hin|].
  apply bool_decide_eq_true in Hname. exact Hname.
Qed.

Lemma next_user_id_above (users : list UserRow) (u : UserRow) :
  u ∈ users → User_id (identity u) < next_user_id users.
Proof.
  intros Hu. unfold next_user_id.
  assert (User_id (identity u) ∈ (λ u, User_id (identity u)) <$> users)
    as Hin by (apply list_elem_of_fmap; eauto).
  destruct ((λ u, User_id (identity u)) <$> users) as [|i ids].
  - apply elem_of_nil in Hin. contradiction.
  - destruct (foldr_max_bound i ids) as [H1 H2].
    apply elem_of_cons in Hin as [->|Hin]; [lia|].
    specialize (H2 _ Hin). lia.
Qed.

(** The outcomes of a call of [register]. *)
Lemma register_cases (salt : string) (users : list UserRow) (m : method)
    (form : gmap string string) :
  (register salt users m form).1 = users
  ∨ ∃ name mail full password,
      m = POST
      ∧ form !! "username" = Some name ∧ form !! "email" = Some mail
      ∧ form !! "full_name" = Some full ∧ form !! "password" = Some password
      ∧ (name ∉ username <$> users) ∧ (mail ∉ email <$> users)
      ∧ register salt users m form
        = (users
           ++ [{| identity := {| User_id := next_user_id users;
                                 full_name := full |};
                  username := name;
                  email := mail;
                  password_hash := generate_password_hash password salt |}],
           RedirectTo "login" (Some ("Registration successful!", "success"))).
Proof.
  unfold register. destruct m; [left; reflexivity|].
  destruct (form !! "username") as [name|]; [|left; reflexivity].
  destruct (by_username users name) eqn:Hname; [left; reflexivity|].
  apply by_username_None in Hname.
  destruct (form !! "email") as [mail|]; [|left; reflexivity].
  destruct (form !! "full_name") as [full|]; [|left; reflexivity].
  destruct (form !! "password") as [password|]; [|left; reflexivity].
  case_bool_decide as Hmail; [left; reflexivity|].
  right. exists name, mail, full, password. repeat split; assumption.
Qed.

(** X19. [register] keeps the constraints of the [User] table and never
    touches an existing row: after any call the old rows are still there,
    in place and unchanged, followed by at most one new row, and user
    names, e-mail addresses and ids are still unique. *)
Theorem register_keeps_the_table_sound (salt : string)
    (users : list UserRow) (m : method) (form : gmap string string) :
  users_ok users →
  users_ok (register salt users m form).1
  ∧ ∃ new, (register salt users m form).1 = users ++ new
           ∧ (length new ≤ 1)%nat.
Proof.
  intros (Hnames & Hmails & Hids).
  destruct (register_cases salt users m form)
    as [->|(name & mail & full & password & _ & _ & _ & _ & _ & Hname & Hmail
            & ->)].
  - split; [repeat split; assumption|].
    exists []. rewrite app_nil_r. split; [reflexivity|simpl; lia].
  - simpl. split; [|eexists; split; [reflexivity|simpl; lia]].
    unfold users_ok. rewrite !fmap_app. simpl.
    repeat split; apply NoDup_app; (split; [assumption|]);
      (split; [|apply NoDup_singleton]).
    + intros x Hx [->|Hnil%elem_of_nil]%elem_of_cons; contradiction.
    + intros x Hx [->|Hnil%elem_of_nil]%elem_of_cons; contradiction.
    + intros x (u & -> & Hu)%list_elem_of_fmap
             [Heq|Hnil%elem_of_nil]%elem_of_cons; [|contradiction].
      apply next_user_id_above in Hu. lia.
Qed.

(** X20. What [register] answers to a POST.  A user name already taken is
    refused with a flashed message before any other field is read; a new
    user name with an e-mail address already in the table fails at commit
    with a server error; a form without [username], or with a new user
    name and without [email], [full_name] or [password], is a bad request.
    In all these cases the table is unchanged. *)
Theorem register_refusals (salt : string) (users : list UserRow)
    (form : gmap string string) :
  (form !! "username" = None →
   register salt users POST form = (users, BadRequest400))
  ∧ (∀ name, form !! "username" = Some name → name ∈ (username <$> users) →
       register salt users POST form
       = (users,
          RedirectTo "register" (Some ("Username already exists", "danger"))))
  ∧ (∀ name, form !! "username" = Some name → name ∉ (username <$> users) →
       form !! "email" = None ∨ form !! "full_name" = None
       ∨ form !! "password" = None →
       register salt users POST form = (users, BadRequest400))
  ∧ (∀ name mail full password,
       form !! "username" = Some name → name ∉ (username <$> users) →
       form !! "email" = Some mail → form !! "full_name" = Some full →
       form !! "password" = Some password → mail ∈ (email <$> users) →
       register salt users POST form = (users, IntegrityError500)).
Proof.
  unfold register. split; [|split; [|split]].
  - intros ->. reflexivity.
  - intros name -> Htaken.
    destruct (by_username users name) eqn:Hname; [reflexivity|].
    apply by_username_None in Hname. contradiction.
  - intros name -> Hfresh%by_username_None Hmissing. rewrite Hfresh.
    destruct Hmissing as [->|[->| ->]]; [reflexivity| |].
    + destruct (form !! "email"); reflexivity.
    + destruct (form !! "email"); [|reflexivity].
      destruct (form !! "full_name"); reflexivity.
  - intros name mail full password -> Hfresh%by_username_None -> -> -> Hmail.
    rewrite Hfresh. rewrite bool_decide_eq_true_2 by exact Hmail.
    reflexivity.
Qed.

(** ** Logging in and out *)

Lemma by_username_app (users more : list UserRow) (name : string)
    (u : UserRow) :
  by_username users name = Some u → by_username (users ++ more) name = Some u.
Proof.
  unfold by_username. induction users as [|v users IH]; simpl; [discriminate|].
  destruct (bool_decide (username v = name)); auto.
Qed.

Lemma by_username_new (users : list UserRow) (u : UserRow) :
  username u ∉ (username <$> users) →
  by_username (users ++ [u]) (username u) = Some u.
Proof.
  unfold by_username. induction users as [|v users IH]; simpl; intros Hfresh.
  - rewrite bool_decide_eq_true_2 by reflexivity. reflexivity.
  - rewrite bool_decide_eq_false_2.
    + apply IH. intros Hin. apply Hfresh. constructor. exact Hin.
    + intros Heq. apply Hfresh. rewrite <- Heq. constructor.
Qed.

Lemma load_user_app (users more : list UserRow) (uid : Z) (user : User) :
  load_user users uid = Some user → load_user (users ++ more) uid = Some user.
Proof.
  unfold load_user. induction users as [|v users IH]; simpl; [discriminate|].
  destruct (bool_decide (User_id (identity v) = uid)); auto.
Qed.

Lemma load_user_new (users : list UserRow) (u : UserRow) :
  User_id (identity u) = next_user_id users →
  load_user (users ++ [u]) (next_user_id users) = Some (identity u).
Proof.
  intros Hid. unfold load_user.
  assert (∀ v, v ∈ users → User_id (identity v) ≠ next_user_id users)
    as Hfresh by (intros v Hv%next_user_id_above; lia).
  generalize dependent (next_user_id users). intros uid Hid Hfresh.
  induction users as [|v users IH]; simpl.
  - rewrite bool_decide_eq_true_2 by exact Hid. reflexivity.
  - rewrite bool_decide_eq_false_2 by (apply Hfresh; constructor).
    apply IH. intros w Hw. apply Hfresh. constructor. exact Hw.
Qed.

Lemma register_all_extends (calls : list (string * method * gmap string string))
    (users : list UserRow) :
  ∃ more, register_all users calls = users ++ more.
Proof.
  revert users. induction calls as [|[[salt m] form] rest IH]; intros users.
  - exists []. rewrite app_nil_r. reflexivity.
  - simpl. destruct (IH (register salt users m form).1) as (more & ->).
    destruct (register_cases salt users m form)
      as [->|(? & ? & ? & ? & _ & _ & _ & _ & _ & _ & _ & ->)]; simpl.
    + eauto.
    + rewrite <- app_assoc. eauto.
Qed.

(** A registration that is accepted has stored the submitted fields. *)
Lemma register_accepted (salt : string) (users users' : list UserRow)
    (form : gmap string string) (flashed : option (string * string)) :
  register salt users POST form = (users', RedirectTo "login" flashed) →
  ∃ name mail full password,
    form !! "username" = Some name ∧ form !! "email" = Some mail
    ∧ form !! "full_name" = Some full ∧ form !! "password" = Some password
    ∧ (name ∉ username <$> users) ∧ (mail ∉ email <$> users)
    ∧ users'
      = users
        ++ [{| identity := {| User_id := next_user_id users;
                              full_name := full |};
               username := name;
               email := mail;
               password_hash := generate_password_hash password salt |}].
Proof.
  unfold register.
  destruct (form !! "username") as [name|]; [|discriminate].
  destruct (by_username users name) eqn:Hname; [discriminate|].
  apply by_username_None in Hname.
  destruct (form !! "email") as [mail|]; [|discriminate].
  destruct (form !! "full_name") as [full|]; [|discriminate].
  destruct (form !! "password") as [password|]; [|discriminate].
  case_bool_decide as Hmail; [discriminate|].
  intros Heq. injection Heq as <- _.
  exists name, mail, full, password. repeat split; assumption.
Qed.

(** X21. Registration and login fit together.  Provided a hash made from
    a password verifies against that password, a user whose registration
    was accepted can log in with the same user name and password, then
    and after any later registrations by others; the session then holds
    an id that loads a user with the registered full name. *)
Theorem registered_user_can_log_in (salt : string) (users users' : list UserRow)
    (form credentials : gmap string string) (flashed : option (string * string))
    (name password full : string)
    (calls : list (string * method * gmap string string))
    (session : option Z) :
  (∀ pw s, check_password_hash (generate_password_hash pw s) pw = true) →
  register salt users POST form = (users', RedirectTo "login" flashed) →
  form !! "username" = Some name →
  form !! "password" = Some password →
  form !! "full_name" = Some full →
  credentials !! "username" = Some name →
  credentials !! "password" = Some password →
  ∃ uid,
    login (register_all users' calls) session POST credentials
    = (Some uid, RedirectTo "dashboard" None)
    ∧ load_user (register_all users' calls) uid
      = Some {| User_id := uid; full_name := full |}.
Proof.
  intros Hhash Hreg Hname Hpw Hfull Hcname Hcpw.
  apply register_accepted in Hreg
    as (name' & mail & full' & password' & Hn & _ & Hf & Hp & Hfresh & _ & ->).
  rewrite Hname in Hn. rewrite Hpw in Hp. rewrite Hfull in Hf.
  injection Hn as <-. injection Hp as <-. injection Hf as <-.
  set (row := {| identity := {| User_id := next_user_id users;
                                full_name := full |};
                 username := name; email := mail;
                 password_hash := generate_password_hash password salt |}).
  destruct (register_all_extends calls (users ++ [row])) as (more & ->).
  exists (next_user_id users). split.
  - unfold login. rewrite Hcname, Hcpw.
    rewrite (by_username_app _ more name row)
      by (apply (by_username_new users row); exact Hfresh).
    unfold check_password. simpl. rewrite Hhash. reflexivity.
  - apply load_user_app. apply (load_user_new users row). reflexivity.
Qed.

(** X22. [login] opens a session only for verified credentials: it
    redirects to the dashboard exactly when the form names an existing user
    and the submitted password verifies against that user's hash, and the
    session then holds that user's id.  In every other case the session is
    left as it was; an unknown user name and a wrong password are answered
    alike. *)
Theorem login_checks_the_password (users : list UserRow) (session : option Z)
    (m : method) (form : gmap string string) :
  (∀ session' flashed,
     login users session m form = (session', RedirectTo "dashboard" flashed) ↔
     m = POST ∧ flashed = None
     ∧ ∃ name user password,
         form !! "username" = Some name
         ∧ by_username users name = Some user
         ∧ form !! "password" = Some password
         ∧ check_password user password = true
         ∧ session' = Some (User_id (identity user)))
  ∧ ((∀ flashed, (login users session m form).2
                 ≠ RedirectTo "dashboard" flashed) →
     (login users session m form).1 = session)
  ∧ (∀ name, m = POST → form !! "username" = Some name →
       by_username users name = None
       ∨ (∃ user password,
            by_username users name = Some user
            ∧ form !! "password" = Some password
            ∧ check_password user password = false) →
       login users session m form
       = (session, Template "login.html" (Some INVALID_CREDENTIALS))).
Proof.
  split; [|split].
  - intros session' flashed. unfold login. split.
    + destruct m; [discriminate|].
      destruct (form !! "username") as [name|]; [|discriminate].
      destruct (by_username users name) as [user|] eqn:Hu; [|discriminate].
      destruct (form !! "password") as [password|]; [|discriminate].
      destruct (check_password user password) eqn:Hc; [|discriminate].
      intros Heq. injection Heq as <- <-. eauto 10.
    + intros (-> & -> & name & user & password & -> & -> & -> & -> & ->).
      reflexivity.
  - unfold login. destruct m; [reflexivity|].
    destruct (form !! "username") as [name|]; [|reflexivity].
    destruct (by_username users name) as [user|]; [|reflexivity].
    destruct (form !! "password") as [password|]; [|reflexivity].
    destruct (check_password user password); [|reflexivity].
    intros Hno. destruct (Hno None). reflexivity.
  - intros name -> Hname [Hnone|(user & password & Hu & Hp & Hc)];
      unfold login; rewrite Hname.
    + rewrite Hnone. reflexivity.
    + rewrite Hu, Hp, Hc. reflexivity.
Qed.

Lemma load_user_Some (users : list UserRow) (uid : Z) (user : User) :
  load_user users uid = Some user →
  User_id user = uid ∧ ∃ row, row ∈ users ∧ identity row = user.
Proof.
  unfold load_user.
  destruct (find _ users) as [row|] eqn:Hf; [|discriminate].
  intros Heq. injection Heq as <-.
  apply find_some in Hf as [Hin%list_elem_of_In Hid%bool_decide_eq_true].
  eauto.
Qed.

Lemma same_id_same_user (users : list UserRow) (u v : UserRow) :
  NoDup ((λ u, User_id (identity u)) <$> users) →
  u ∈ users → v ∈ users →
  User_id (identity u) = User_id (identity v) → u = v.
Proof.
  induction users as [|x users IH]; simpl; intros Hnd Hu Hv Hid.
  - apply elem_of_nil in Hu. contradiction.
  - apply NoDup_cons in Hnd as [Hx Hnd].
    apply elem_of_cons in Hu as [->|Hu]; apply elem_of_cons in Hv as [->|Hv].
    + reflexivity.
    + destruct Hx. rewrite Hid. apply list_elem_of_fmap. eauto.
    + destruct Hx. rewrite <- Hid. apply list_elem_of_fmap. eauto.
    + auto.
Qed.

(** X23. After a login the other routes act for the user who logged in:
    with unique ids in the [User] table, the session that [login] opens
    loads the very row whose password was verified, so the dashboard
    greets that user by the registered full name and lists the history of
    that user's id. *)
Theorem dashboard_after_login (users : list UserRow) (session session' : option Z)
    (form : gmap string string) (flashed : option (string * string))
    (name : string) (user : UserRow) (d : string → file) (now : Z)
    (w : World) :
  NoDup ((λ u, User_id (identity u)) <$> users) →
  login users session POST form = (session', RedirectTo "dashboard" flashed) →
  form !! "username" = Some name →
  by_username users name = Some user →
  current_user (client_env users session' d now) = Some (identity user)
  ∧ dashboard (client_env users session' d now) w
    = (w, DashboardPage (full_name (identity user))
            (history_query (Prediction_table w) (User_id (identity user)))).
Proof.
  intros Hnd Hlogin Hname Huser.
  assert (session' = Some (User_id (identity user))) as ->.
  { unfold login in Hlogin. rewrite Hname, Huser in Hlogin.
    destruct (form !! "password"); [|discriminate].
    destruct (check_password user _); [|discriminate].
    injection Hlogin as <-. reflexivity. }
  assert (load_user users (User_id (identity user)) = Some (identity user))
    as Hload.
  { apply by_username_Some in Huser as [Hin _].
    destruct (load_user users (User_id (identity user))) as [found|] eqn:Hl.
    - apply load_user_Some in Hl as (Hid & row & Hrow & <-).
      f_equal. f_equal. apply (same_id_same_user users); assumption.
    - unfold load_user in Hl.
      destruct (find _ users) eqn:Hf; [discriminate|].
      apply list_elem_of_In in Hin. apply (find_none _ _ Hf) in Hin.
      apply bool_decide_eq_false in Hin. contradiction. }
  unfold dashboard, client_env, session_user. simpl. rewrite Hload.
  split; reflexivity.
Qed.

(** X24. After [logout] no user is logged in, whatever the session was
    before, and every scoring, dashboard and report request of that client
    is redirected to the login page without touching the state. *)
Theorem logout_closes_the_session (users : list UserRow) (session : option Z)
    (d : string → file) (now : Z) (w : World) (req : request) :
  session_user users (logout users session).1 = None
  ∧ handle (client_env users (logout users session).1 d now) w req
    = (w, Redirect "login").
Proof.
  assert (session_user users (logout users session).1 = None) as Hnone.
  { unfold logout. destruct (session_user users session) eqn:Hs; simpl.
    - reflexivity.
    - exact Hs. }
  split; [exact Hnone|].
  destruct req; simpl;
    unfold predict_house, predict_loan, dashboard, download_report, client_env;
    simpl; rewrite Hnone; reflexivity.
Qed.

End AccountProperties.


(** * The service on concrete requests *)

Section Runs.
#[local] Existing Instance Ref.platform.

Example after_house_table :
  Prediction_table Sample.after_house = [Sample.house_row].
Proof. reflexivity. Qed.

Example report_lines :
  report_ops Sample.house_row Sample.alice !! 6%nat
  = Some (drawString 100 700 "Report ID: TB-0001")
  ∧ report_ops Sample.house_row Sample.alice !! 13%nat
    = Some (drawString 120 580 "- Bedrooms: 3.0")
  ∧ report_ops Sample.house_row Sample.alice !! 25%nat
    = Some (drawString 100 420 "Analytical Confidence: 94.2%").
Proof. repeat split; reflexivity. Qed.


(** C1, on the request "Rural", "Yes", "Graduate". *)
Lemma loan_encoding_tail_witness :
  loan_data Sample.loan_form = Return Sample.loan_record
  ∧ drop 5 (loan_features Sample.loan_record) = [SInt 2; SInt 1; SInt 1].
Proof.
  split; [reflexivity|].
  destruct (loan_encoding_tail Sample.loan_form Sample.loan_record eq_refl)
    as (pa & ma & ed & area & m & e & Hpa & Hma & Hed & _ & _ & _ & _ & _
        & _ & _ & _ & _ & Hscenario).
  injection Hpa as <-. injection Hma as <-. injection Hed as <-.
  apply Hscenario; reflexivity.
Defined.

(** C2, on a model that answers 1. *)
Lemma loan_label_witness :
  ∃ w',
    predict_loan (Sample.env_class 1 Sample.t0 Sample.alice) (boot [])
                 Sample.loan_form
    = (w', ResultPage "Approved ✅" "Loan Eligibility Analysis" "loan"
                      loan_explain 1).
Proof.
  destruct (loan_label_by_equality_with_1
              (Sample.env_class 1 Sample.t0 Sample.alice) (boot [])
              Sample.loan_form Sample.alice
              (Sample.constant_model (SInt 1)) Sample.loan_record (SInt 1) []
              eq_refl (or_intror (conj eq_refl eq_refl)) eq_refl eq_refl)
    as (text & Hrun & _ & Happroved & _).
  rewrite (Happroved eq_refl) in Hrun. eexists. exact Hrun.
Defined.

(** C2 as stated fails: a model that answers 2 is not a fault; the
    request succeeds, shows "Flagged for Review" and stores it. *)
Lemma unexpected_class_is_flagged :
  predict (Sample.constant_model (SInt 2)) (loan_features Sample.loan_record)
  = Return [SInt 2]
  ∧ (predict_loan (Sample.env_class 2 Sample.t0 Sample.alice) (boot [])
                  Sample.loan_form).2
    = ResultPage "Flagged for Review ❌" "Loan Eligibility Analysis" "loan"
                 loan_explain 1
  ∧ result_text
    <$> Prediction_table
          (predict_loan (Sample.env_class 2 Sample.t0 Sample.alice) (boot [])
                        Sample.loan_form).1
    = ["Flagged for Review ❌"].
Proof. repeat split; reflexivity. Qed.

(** C3, on the house request of the scenario with no artifact on disk,
    and on a request whose [bedrooms] does not parse. *)
Lemma errors_leave_no_record_witness :
  predict_house (Sample.env_at Sample.empty_disk Sample.t0 Sample.alice)
                (boot []) Sample.house_form
  = (boot [], ResultError Sample.offline_house)
  ∧ Prediction_table
      (predict_house (Sample.env_class 1 Sample.t0 Sample.alice) (boot [])
                     Sample.bad_bedrooms).1
    = [].
Proof.
  split.
  - apply (errors_leave_no_record
             (Sample.env_at Sample.empty_disk Sample.t0 Sample.alice)
             (boot []) Sample.house_form Sample.alice eq_refl);
      reflexivity.
  - destruct (errors_leave_no_record
                (Sample.env_class 1 Sample.t0 Sample.alice)
                (boot []) Sample.bad_bedrooms Sample.alice eq_refl)
      as (_ & _ & Hhouse & _).
    apply (Hhouse (Sample.constant_model Sample.appraisal)
                  "could not convert string to float: 'abc'").
    + right. split; reflexivity.
    + reflexivity.
Defined.


(** C4, on Alice's row and three later requests. *)
Lemma records_are_write_once_witness :
  query_get (Prediction_table (run Sample.after_house Sample.later)) 1
  = Some Sample.house_row
  ∧ ∀ u r',
      r' ∈ history_query
             (Prediction_table (run Sample.after_house Sample.later)) u →
      pred_id r' = 1 → r' = Sample.house_row.
Proof.
  apply (records_are_write_once Sample.after_house Sample.later 1
                                Sample.house_row).
  - apply (NoDup_singleton 1).
  - reflexivity.
Defined.

(** C5: Bob asks for Alice's report, Alice for a report that does not
    exist, Alice for her own. *)
Lemma report_access_witness :
  download_report (Sample.env_at Sample.empty_disk Sample.t1 Sample.bob)
                  Sample.after_house 1
  = (Sample.after_house, Unauthorized403)
  ∧ download_report (Sample.env_at Sample.empty_disk Sample.t1 Sample.alice)
                    Sample.after_house 7
    = (Sample.after_house, NotFound404)
  ∧ ∃ body name,
      download_report (Sample.env_at Sample.empty_disk Sample.t1 Sample.alice)
                      Sample.after_house 1
      = (Sample.after_house, SendFile body name "application/pdf").
Proof.
  split; [|split].
  - destruct (report_access
                (Sample.env_at Sample.empty_disk Sample.t1 Sample.bob)
                Sample.after_house 1 Sample.bob eq_refl)
      as (_ & Hforbidden & _).
    apply (Hforbidden Sample.house_row); [reflexivity|discriminate].
  - destruct (report_access
                (Sample.env_at Sample.empty_disk Sample.t1 Sample.alice)
                Sample.after_house 7 Sample.alice eq_refl)
      as (Hnotfound & _).
    apply Hnotfound.
    intros p [->|Hnil%elem_of_nil]%elem_of_cons; [discriminate|contradiction].
  - destruct (report_access
                (Sample.env_at Sample.empty_disk Sample.t1 Sample.alice)
                Sample.after_house 1 Sample.alice eq_refl)
      as (_ & _ & Hsent & _).
    apply (Hsent Sample.house_row); reflexivity.
Defined.

(** C6: Alice's report asked at [t0] and, after Bob's loan request, at
    [t1] with another disk: the same drawing calls reach the writer. *)
Lemma report_content_is_pure_witness :
  ∃ name,
    (download_report (Sample.env_class 1 Sample.t0 Sample.alice)
                     Sample.after_house 1).2
    = SendFile (canvas_save Sample.t0 LETTER
                            (report_ops Sample.house_row Sample.alice))
               name "application/pdf"
    ∧ (download_report (Sample.env_at Sample.empty_disk Sample.t1 Sample.alice)
                       (run Sample.after_house Sample.later) 1).2
      = SendFile (canvas_save Sample.t1 LETTER
                              (report_ops Sample.house_row Sample.alice))
                 name "application/pdf".
Proof.
  destruct (report_content_is_pure
              (Sample.env_class 1 Sample.t0 Sample.alice)
              (Sample.env_at Sample.empty_disk Sample.t1 Sample.alice)
              Sample.after_house (run Sample.after_house Sample.later) 1
              Sample.house_row Sample.alice Sample.alice
              eq_refl eq_refl eq_refl eq_refl eq_refl eq_refl eq_refl)
    as (name & H1 & H2 & _).
  exists name. split; assumption.
Defined.

(** C6 as stated fails: the same report asked twice, one minute apart,
    comes as two different byte streams, the writer having stamped each
    with the time it was made; bytes 24 to 42 hold that stamp. *)
Lemma report_bytes_depend_on_clock :
  let report now :=
    (download_report (Sample.env_at Sample.empty_disk now Sample.alice)
                     Sample.after_house 1).2 in
  String.string_of_list_byte (take 19 (drop 24 (sent_body (report Sample.t0))))
  = "2023-11-14 22:13:20"
  ∧ String.string_of_list_byte
      (take 19 (drop 24 (sent_body (report Sample.t1))))
    = "2023-11-14 22:14:20"
  ∧ report Sample.t0 ≠ report Sample.t1.
Proof.
  intros report. split; [vm_compute; reflexivity|].
  split; [vm_compute; reflexivity|].
  intros Heq. apply (f_equal (λ r, sent_body r !! 39%nat)) in Heq.
  vm_compute in Heq. discriminate Heq.
Qed.


(** C7, on Alice's house request. *)
Lemma snapshot_is_parsed_data_witness :
  ∃ row,
    Prediction_table Sample.after_house = Prediction_table (boot []) ++ [row]
    ∧ pred_id row = 1
    ∧ (input_json row).*1 = house_fields
    ∧ ∀ k v, (k, v) ∈ input_json row →
        ∃ raw x, Sample.house_form !! k = Some raw
                 ∧ float_ raw = Return x ∧ v = JFloat x.
Proof.
  exact (proj1 (snapshot_is_parsed_data
                  (Sample.env_class 1 Sample.t0 Sample.alice) (boot [])
                  Sample.house_form Sample.after_house "$350,000.00"
                  "Real Estate Appraisal" "house" house_explain 1)
               eq_refl).
Defined.

(** C7 as stated fails: the submitted texts "3" and "3.0" are stored as
    the same snapshot, which holds the parsed number 3.0 and not the text
    that was submitted. *)
Lemma snapshot_is_not_the_raw_text :
  Sample.house_form !! "bedrooms" = Some "3"
  ∧ Sample.bedrooms_3_0 !! "bedrooms" = Some "3.0"
  ∧ input_json
    <$> Prediction_table
          (predict_house (Sample.env_class 1 Sample.t0 Sample.alice) (boot [])
                         Sample.house_form).1
    = [input_json Sample.house_row]
  ∧ input_json
    <$> Prediction_table
          (predict_house (Sample.env_class 1 Sample.t0 Sample.alice) (boot [])
                         Sample.bedrooms_3_0).1
    = [input_json Sample.house_row]
  ∧ input_json Sample.house_row !! 0%nat = Some ("bedrooms", JFloat 3%Q)
  ∧ format_jvalue (JFloat 3%Q) = "3.0".
Proof. repeat split; reflexivity. Qed.

(** C8 as stated fails: after a request found no artifact, the next one
    looks at the disk again, finds the artifact and is served. *)
Lemma failed_load_is_retried :
  let offline := Sample.env_at Sample.empty_disk Sample.t0 Sample.alice in
  let online := Sample.env_class 1 Sample.t1 Sample.alice in
  let w1 := (predict_house offline (boot []) Sample.house_form).1 in
  (predict_house offline (boot []) Sample.house_form).2
  = ResultError Sample.offline_house
  ∧ house_model w1 = None
  ∧ (predict_house online w1 Sample.house_form).2
    = ResultPage "$350,000.00" "Real Estate Appraisal" "house" house_explain 1
  ∧ house_model (predict_house online w1 Sample.house_form).1
    = Some (Sample.constant_model Sample.appraisal).
Proof. repeat split; reflexivity. Qed.

(** C8: the model loaded by Alice's house request is still the cached one
    after the later requests, which ran against other disks. *)
Lemma model_cache_behaviour_witness :
  house_model (run Sample.after_house Sample.later)
  = Some (Sample.constant_model Sample.appraisal).
Proof.
  exact (proj1 (model_cache_behaviour
                  (Sample.env_at Sample.empty_disk Sample.t1 Sample.alice)
                  Sample.after_house Sample.house_form)
               (Sample.constant_model Sample.appraisal) Sample.later eq_refl).
Defined.

(** C9, on a request whose [bedrooms] is "abc". *)
Lemma failed_field_error_witness :
  (predict_house (Sample.env_class 1 Sample.t0 Sample.alice) (boot [])
                 Sample.bad_bedrooms).2
  = ResultError "Data processing error: could not convert string to float: 'abc'"
  ∧ Prediction_table
      (predict_house (Sample.env_class 1 Sample.t0 Sample.alice) (boot [])
                     Sample.bad_bedrooms).1
    = [].
Proof.
  destruct (failed_field_error
              (Sample.env_class 1 Sample.t0 Sample.alice) (boot [])
              Sample.bad_bedrooms Sample.alice "bedrooms"
              "could not convert string to float: 'abc'" eq_refl eq_refl)
    as [Hhouse _].
  destruct (Hhouse (list_elem_of_here "bedrooms" _)
                   (Sample.constant_model Sample.appraisal)
                   (or_intror (conj eq_refl eq_refl)))
    as (n & k' & msg & _ & _ & _ & Hd & Hpage & Htable).
  assert (@Raise HouseData "could not convert string to float: 'abc'"
          = Raise msg) as Hmsg by exact Hd.
  injection Hmsg as <-. split; assumption.
Defined.

(** C9 as stated fails: a request whose only bad field is [bedrooms] and
    one whose only bad field is [bathrooms] receive the same error page,
    which quotes the bad value and names no field. *)
Lemma error_page_does_not_name_field :
  failing_fields Sample.bad_bedrooms house_fields = ["bedrooms"]
  ∧ failing_fields Sample.bad_bathrooms house_fields = ["bathrooms"]
  ∧ (predict_house (Sample.env_class 1 Sample.t0 Sample.alice) (boot [])
                   Sample.bad_bedrooms).2
    = ResultError "Data processing error: could not convert string to float: 'abc'"
  ∧ (predict_house (Sample.env_class 1 Sample.t0 Sample.alice) (boot [])
                   Sample.bad_bathrooms).2
    = ResultError "Data processing error: could not convert string to float: 'abc'".
Proof. repeat split; reflexivity. Qed.

(** C10, on the rows of a run with a house and a loan request. *)
Example created_confidence_prints_94_2 :
  (λ row, (type row, float_repr (confidence row)))
  <$> Prediction_table (run Sample.after_house Sample.later)
  = [("house", "94.2"); ("loan", "94.2")].
Proof. reflexivity. Qed.


(** ** Runs for the further properties *)

#[local] Existing Instance RefHasher.hasher.

Lemma prefix_append (a b c : string) :
  String.prefix (a +:+ b) (a +:+ c) = String.prefix b c.
Proof.
  induction a as [|x a IH]; simpl; [reflexivity|].
  destruct (ascii_dec x x) as [_|Hne]; [exact IH|contradiction].
Qed.

Lemma reference_hash_verifies (pw s : string) :
  check_password_hash (generate_password_hash pw s) pw = true.
Proof.
  simpl. unfold RefHasher.check, RefHasher.generate.
  rewrite prefix_append. simpl.
  destruct (ascii_dec "$" "$") as [_|Hne]; [|contradiction].
  destruct s; reflexivity.
Qed.

Example sample_users :
  SampleUsers.one_user = [SampleUsers.alice_row]
  ∧ username <$> SampleUsers.two_users = ["alice"; "bob"]
  ∧ identity <$> SampleUsers.two_users = [Sample.alice; Sample.bob].
Proof. repeat split; reflexivity. Qed.

(** X1, on a dashboard request without a session. *)
Lemma anonymous_request_is_redirected_witness :
  handle SampleUsers.anonymous Sample.after_house Dashboard
  = (Sample.after_house, Redirect "login").
Proof.
  apply (anonymous_request_is_redirected
           SampleUsers.anonymous Sample.after_house Dashboard).
  reflexivity.
Defined.

(** X3, on a house artifact that cannot be unpickled. *)
Lemma unreadable_artifact_is_a_server_error_witness :
  (predict_house SampleUsers.unreadable_env (boot []) Sample.house_form).2
  = InternalServerError.
Proof.
  apply (unreadable_artifact_is_a_server_error
           SampleUsers.unreadable_env (boot []) Sample.house_form
           Sample.alice eq_refl).
  split; [reflexivity|]. exists "invalid load key". reflexivity.
Defined.

(** X6, on a model that rejects the row. *)
Lemma model_fault_is_an_error_page_witness :
  predict_house SampleUsers.failing_env (boot []) Sample.house_form
  = (set_house_model (boot []) (Some SampleUsers.failing_model),
     ResultError "Data processing error: X has 7 features, but LinearRegression is expecting 6 features as input.").
Proof.
  destruct (model_fault_is_an_error_page
              SampleUsers.failing_env (boot []) Sample.house_form
              Sample.alice SampleUsers.failing_model eq_refl)
    as [Hhouse _].
  apply (Hhouse SampleUsers.house_data_3).
  - right. split; reflexivity.
  - reflexivity.
  - left. reflexivity.
Defined.

(** X7, on Alice's house request. *)
Lemma result_page_matches_stored_row_witness :
  ∃ user row,
    current_user (Sample.env_class 1 Sample.t0 Sample.alice) = Some user
    ∧ Prediction_table Sample.after_house = Prediction_table (boot []) ++ [row]
    ∧ pred_id row = 1 ∧ type row = "house" ∧ result_text row = "$350,000.00"
    ∧ user_id row = User_id user ∧ timestamp row = Sample.t0
    ∧ query_get (Prediction_table Sample.after_house) 1 = Some row.
Proof.
  exact (result_page_matches_stored_row
           (Sample.env_class 1 Sample.t0 Sample.alice) (boot [])
           Sample.after_house (PredictHouse Sample.house_form)
           "$350,000.00" "Real Estate Appraisal" "house" house_explain 1
           eq_refl).
Defined.

(** X10: Alice's report after the later requests, asked by Alice and by
    Bob. *)
Lemma report_follows_prediction_witness :
  (∃ body,
     (download_report (Sample.env_at Sample.empty_disk Sample.t1 Sample.alice)
                      (run Sample.after_house Sample.later) 1).2
     = SendFile body "TrustBridge_Report_1.pdf" "application/pdf")
  ∧ (download_report (Sample.env_at Sample.empty_disk Sample.t1 Sample.bob)
                     (run Sample.after_house Sample.later) 1).2
    = Unauthorized403.
Proof.
  split.
  - apply (report_follows_prediction
             (Sample.env_class 1 Sample.t0 Sample.alice)
             (Sample.env_at Sample.empty_disk Sample.t1 Sample.alice)
             (boot []) Sample.after_house (PredictHouse Sample.house_form)
             "$350,000.00" "Real Estate Appraisal" "house" house_explain 1
             Sample.later Sample.alice Sample.alice eq_refl eq_refl eq_refl).
    reflexivity.
  - apply (report_follows_prediction
             (Sample.env_class 1 Sample.t0 Sample.alice)
             (Sample.env_at Sample.empty_disk Sample.t1 Sample.bob)
             (boot []) Sample.after_house (PredictHouse Sample.house_form)
             "$350,000.00" "Real Estate Appraisal" "house" house_explain 1
             Sample.later Sample.alice Sample.bob eq_refl eq_refl eq_refl).
    discriminate.
Defined.

(** X13: Alice's loan request one minute after her house request. *)
Lemma newest_prediction_heads_history_witness :
  ∃ row,
    head (history_query
            (Prediction_table
               (predict_loan (Sample.env_class 1 Sample.t1 Sample.alice)
                             Sample.after_house Sample.loan_form).1)
            1)
    = Some row
    ∧ pred_id row = 2 ∧ result_text row = "Approved ✅".
Proof.
  apply (newest_prediction_heads_history
           (Sample.env_class 1 Sample.t1 Sample.alice) Sample.after_house
           (predict_loan (Sample.env_class 1 Sample.t1 Sample.alice)
                         Sample.after_house Sample.loan_form).1
           (PredictLoan Sample.loan_form)
           "Approved ✅" "Loan Eligibility Analysis" "loan" loan_explain 2
           Sample.alice eq_refl eq_refl).
  intros r [->|Hnil%elem_of_nil]%elem_of_cons _; [|contradiction].
  reflexivity.
Defined.

(** X15, on the row of Alice's house request. *)
Lemma route_report_fits_the_page_witness :
  Forall in_footer_or_body (report_ops Sample.house_row Sample.alice).
Proof.
  apply (route_report_fits_the_page Sample.house_row Sample.alice).
  left. repeat split. exists "350,000.00". reflexivity.
Defined.

(** X16: the same report asked at two times. *)
Lemma report_names_are_distinct_witness : (1 : Z) = 1.
Proof.
  exact (report_names_are_distinct
           (Sample.env_at Sample.empty_disk Sample.t0 Sample.alice)
           (Sample.env_at Sample.empty_disk Sample.t1 Sample.alice)
           Sample.after_house Sample.after_house 1 1
           (canvas_save Sample.t0 LETTER
                        (report_ops Sample.house_row Sample.alice))
           (canvas_save Sample.t1 LETTER
                        (report_ops Sample.house_row Sample.alice))
           "TrustBridge_Report_1.pdf" "application/pdf" "application/pdf"
           eq_refl eq_refl).
Defined.

(** X17, on the first row and a row with id 12345. *)
Lemma report_id_is_padded_and_unique_witness :
  ∃ k,
    report_ops Sample.house_row Sample.alice !! 6%nat
    = Some (drawString 100 700 ("Report ID: TB-" +:+ zeros k +:+ pretty 1))
    ∧ (4 ≤ k + String.length (pretty 1))%nat.
Proof.
  apply (report_id_is_padded_and_unique
           Sample.house_row Sample.house_row Sample.alice Sample.alice);
    simpl; lia.
Defined.

(** X18, on "Rural", "Yes", "Graduate". *)
Lemma serving_codes_agree_with_training_witness :
  drop 5 (loan_features Sample.loan_record) = [SInt 2; SInt 1; SInt 1].
Proof.
  apply (serving_codes_agree_with_training Sample.loan_record 2 1 1);
    reflexivity.
Defined.


(** X19: Bob registers after Alice. *)
Lemma register_keeps_the_table_sound_witness :
  users_ok (register "salt-b" SampleUsers.one_user POST
                     SampleUsers.bob_signup).1
  ∧ ∃ new,
      (register "salt-b" SampleUsers.one_user POST SampleUsers.bob_signup).1
      = SampleUsers.one_user ++ new
      ∧ (length new ≤ 1)%nat.
Proof.
  apply (register_keeps_the_table_sound
           "salt-b" SampleUsers.one_user POST SampleUsers.bob_signup).
  repeat split; apply NoDup_singleton.
Defined.

(** X21: Alice registers, Bob registers, Alice's second registration is
    refused, and Alice logs in. *)
Lemma registered_user_can_log_in_witness :
  ∃ uid,
    login SampleUsers.two_users None POST SampleUsers.alice_login
    = (Some uid, RedirectTo "dashboard" None)
    ∧ load_user SampleUsers.two_users uid
      = Some {| User_id := uid; full_name := "Alice Martin" |}.
Proof.
  exact (registered_user_can_log_in
           "salt-a" [] SampleUsers.one_user SampleUsers.alice_signup
           SampleUsers.alice_login
           (Some ("Registration successful!", "success"))
           "alice" "correct horse" "Alice Martin"
           SampleUsers.later_signups None
           reference_hash_verifies eq_refl eq_refl eq_refl eq_refl eq_refl
           eq_refl).
Defined.

(** X23: Alice logs in and opens the dashboard after her house request. *)
Lemma dashboard_after_login_witness :
  current_user
    (client_env SampleUsers.two_users (Some 1) Sample.empty_disk Sample.t1)
  = Some Sample.alice
  ∧ dashboard
      (client_env SampleUsers.two_users (Some 1) Sample.empty_disk Sample.t1)
      Sample.after_house
    = (Sample.after_house, DashboardPage "Alice Martin" [Sample.house_row]).
Proof.
  apply (dashboard_after_login
           SampleUsers.two_users None (Some 1) SampleUsers.alice_login None
           "alice" (SampleUsers.alice_row) Sample.empty_disk Sample.t1
           Sample.after_house).
  - change (NoDup [1; 2]). apply NoDup_cons. split; [|apply NoDup_singleton].
    intros [Hne|Hnil%elem_of_nil]%elem_of_cons; [discriminate|contradiction].
  - reflexivity.
  - reflexivity.
  - reflexivity.
Defined.

End Runs.
